(** * macos-ui-automation-mcp: the bridge factory and the data model

    A shallow embedding of [src/macos_ui_automation/bridges/factory.py]
    (the process-wide triple of bridge singletons) and of the data model
    exercised by [tests/models/test_types.py], with the properties the
    specification states about them.

    Part I holds the definitions, Part II the theorems. *)

From Stdlib Require Import ZArith List Bool Lia.
From stdpp Require Import base option list strings gmap pretty.

Set Warnings "-register-all".

Local Open Scope string_scope.
Local Open Scope Z_scope.
Local Open Scope list_scope.

(** ** Python exceptions *)

(** The exception classes the factory can tell apart.  [except ImportError]
    is an [isinstance] test, so the subclass [ModuleNotFoundError] is caught
    too; every other class is kept by name. *)
Inductive exc_class : Type :=
  | ImportError
  | ModuleNotFoundError
  | OtherException (name : string).

Record exc : Type := Exc { exc_cls : exc_class; exc_msg : string }.

Definition isinstance_ImportError (e : exc) : bool :=
  match exc_cls e with
  | ImportError | ModuleNotFoundError => true
  | OtherException _ => false
  end.

(** ** Log records of [logging.getLogger(__name__)] *)

Inductive log_record : Type :=
  | LogInfo (msg : string)
  | LogWarning (fmt : string) (arg : exc).

(** ** Objects, references and the module state *)

(** A reference to a Python object: its index in the store of objects
    allocated so far.  Two references are the same object exactly when they
    are equal ([is]). *)
Definition loc : Type := nat.

(** The environment of one call: what the code asks of modules that are not
    part of [factory.py].  [is_test_mode] is the answer of
    [macos_ui_automation.core.registry.is_test_mode()]; the other fields say
    whether importing [.real_bridge] and running each real constructor
    succeeds ([None]) or raises. *)
Record Env : Type := {
  is_test_mode : bool;
  import_real_bridge : option exc;
  init_RealPyObjCBridge : option exc;
  init_RealWorkspaceBridge : option exc;
  init_RealApplicationBridge : option exc
}.

(** Line 67: fake mode is asked for, or the test mode is on. *)
Definition use_fake (env : Env) (force_fake : bool) : bool :=
  force_fake || is_test_mode env.

(** What fails first when the real bridges are constructed (lines 92-103):
    the import, then the three constructors in the order of the tuple. *)
Definition real_bridge_failure (env : Env) : option exc :=
  match import_real_bridge env with
  | Some e => Some e
  | None =>
      match init_RealPyObjCBridge env with
      | Some e => Some e
      | None =>
          match init_RealWorkspaceBridge env with
          | Some e => Some e
          | None => init_RealApplicationBridge env
          end
      end
  end.

(** What a call does: it returns a value or raises. *)
Inductive outcome (A : Type) : Type :=
  | Return (a : A)
  | Raise (e : exc).
Arguments Return {A} a.
Arguments Raise {A} e.

Section Bridges.
(** The fixture types of [fake_bridge.py] are declared elsewhere; the
    factory only passes them on. *)
Context {FakeAXUIElement FakeNSRunningApplication : Type}.

(** The bridge objects the factory constructs.  A fake element-access
    bridge holds its applications map, a fake workspace bridge its list of
    running applications. *)
Inductive obj : Type :=
  | FakePyObjCBridge (applications : gmap Z FakeAXUIElement)
  | FakeWorkspaceBridge (running_apps : list FakeNSRunningApplication)
  | FakeApplicationBridge
  | RealPyObjCBridge
  | RealWorkspaceBridge
  | RealApplicationBridge.

(** The store, the three module globals and the log. *)
Record State : Type := {
  heap : list obj;
  _pyobjc_bridge : option loc;
  _workspace_bridge : option loc;
  _application_bridge : option loc;
  log : list log_record
}.

Definition with_heap (h : list obj) (s : State) : State :=
  {| heap := h;
     _pyobjc_bridge := _pyobjc_bridge s;
     _workspace_bridge := _workspace_bridge s;
     _application_bridge := _application_bridge s;
     log := log s |}.

Definition with_log (l : list log_record) (s : State) : State :=
  {| heap := heap s;
     _pyobjc_bridge := _pyobjc_bridge s;
     _workspace_bridge := _workspace_bridge s;
     _application_bridge := _application_bridge s;
     log := l |}.

Definition with_slots (p w a : option loc) (s : State) : State :=
  {| heap := heap s;
     _pyobjc_bridge := p;
     _workspace_bridge := w;
     _application_bridge := a;
     log := log s |}.

Definition slots (s : State) : option loc * option loc * option loc :=
  (_pyobjc_bridge s, _workspace_bridge s, _application_bridge s).

(** *** A state and exception monad *)

Definition M (A : Type) : Type := State -> outcome A * State.

Definition ret {A} (a : A) : M A := fun s => (Return a, s).

Definition bind {A B} (m : M A) (k : A -> M B) : M B :=
  fun s =>
    match m s with
    | (Return a, s') => k a s'
    | (Raise e, s') => (Raise e, s')
    end.

Definition raise {A} (e : exc) : M A := fun s => (Raise e, s).

Definition get : M State := fun s => (Return s, s).

(** [try: body except ImportError as e: handler e].  What the body did to
    the state before it raised stays done. *)
Definition try_except_ImportError {A} (body : M A) (handler : exc -> M A)
  : M A :=
  fun s =>
    match body s with
    | (Return a, s') => (Return a, s')
    | (Raise e, s') =>
        if isinstance_ImportError e then handler e s' else (Raise e, s')
    end.

Definition logger_info (msg : string) : M unit :=
  fun s => (Return tt, with_log (log s ++ [LogInfo msg]) s).

Definition logger_warning (fmt : string) (arg : exc) : M unit :=
  fun s => (Return tt, with_log (log s ++ [LogWarning fmt arg]) s).

(** Allocation of a new object: the next free index of the store. *)
Definition new (o : obj) : M loc :=
  fun s => (Return (length (heap s)), with_heap (heap s ++ [o]) s).

(** The state after three allocations in a row. *)
Definition alloc3 (o1 o2 o3 : obj) (s : State) : State :=
  with_heap (heap s ++ [o1; o2; o3]) s.

(** The state once the real path of [create_pyobjc_bridge] is entered and
    has allocated [g]. *)
Definition real_started (g : list obj) (s : State) : State :=
  with_log (log s ++ [LogInfo "Using real PyObjC bridge"])
    (with_heap (heap s ++ g) s).

(** An import statement or a constructor call of a module outside
    [factory.py], with the outcome the environment gives it. *)
Definition py_import (r : option exc) : M unit :=
  match r with
  | None => ret tt
  | Some e => raise e
  end.

Definition call_init (r : option exc) (o : obj) : M loc :=
  match r with
  | None => new o
  | Some e => raise e
  end.

Local Notation "x <- c1 ;; c2" := (bind c1 (fun x => c2))
  (at level 100, c1 at next level, right associativity).
Local Notation "c1 ;; c2" := (bind c1 (fun _ => c2))
  (at level 100, right associativity).

Definition is_none {A} (o : option A) : bool :=
  match o with
  | None => true
  | Some _ => false
  end.

(** *** factory.py *)

(** Lines 25-49.  The import of [.fake_bridge] and the three fake
    constructors are taken to succeed: the fake bridges are plain
    in-memory objects. *)
Definition create_fake_bridges_with_system
    (applications : gmap Z FakeAXUIElement)
    (running_apps : list FakeNSRunningApplication)
  : M (loc * loc * loc) :=
  p <- new (FakePyObjCBridge applications) ;;
  w <- new (FakeWorkspaceBridge running_apps) ;;
  a <- new FakeApplicationBridge ;;
  ret (p, w, a).

(** Modelled from the spec: [fake_bridge.py] is not among the sources; a
    fake bridge constructed with no fixture is the empty world, with no
    elements and no running applications. *)
Definition FakePyObjCBridge_default : obj := FakePyObjCBridge ∅.
Definition FakeWorkspaceBridge_default : obj := FakeWorkspaceBridge [].

(** Lines 52-117. *)
Definition create_pyobjc_bridge (env : Env) (force_fake : bool)
  : M (loc * loc * loc) :=
  let use_fake := force_fake || is_test_mode env in
  g <- get ;;
  match use_fake,
        _pyobjc_bridge g, _workspace_bridge g, _application_bridge g with
  | true, Some p, Some w, Some a => ret (p, w, a)
  | _, _, _, _ =>
      if use_fake then
        logger_info "Using fake PyObjC bridge for testing" ;;
        p <- new FakePyObjCBridge_default ;;
        w <- new FakeWorkspaceBridge_default ;;
        a <- new FakeApplicationBridge ;;
        ret (p, w, a)
      else
        try_except_ImportError
          (logger_info "Using real PyObjC bridge" ;;
           py_import (import_real_bridge env) ;;
           p <- call_init (init_RealPyObjCBridge env) RealPyObjCBridge ;;
           w <- call_init (init_RealWorkspaceBridge env)
                  RealWorkspaceBridge ;;
           a <- call_init (init_RealApplicationBridge env)
                  RealApplicationBridge ;;
           ret (p, w, a))
          (fun e =>
             logger_warning "Failed to import real PyObjC bridge: %s" e ;;
             logger_info "Falling back to fake PyObjC bridge" ;;
             p <- new FakePyObjCBridge_default ;;
             w <- new FakeWorkspaceBridge_default ;;
             a <- new FakeApplicationBridge ;;
             ret (p, w, a))
  end.

(** The tuple assignment to the three globals (lines 134, 153, 172). *)
Definition assign_globals (t : loc * loc * loc) : M unit :=
  fun s =>
    let '(p, w, a) := t in
    (Return tt, with_slots (Some p) (Some w) (Some a) s).

(** Lines 120-136.  The value returned is whatever the global holds
    then *)
Definition get_pyobjc_bridge (env : Env) : M (option loc) :=
  g <- get ;;
  (if is_none (_pyobjc_bridge g)
      || is_none (_workspace_bridge g)
      || is_none (_application_bridge g)
   then
     t <- create_pyobjc_bridge env false ;;
     assign_globals t
   else ret tt) ;;
  g' <- get ;;
  ret (_pyobjc_bridge g').

(** Lines 139-155. *)
Definition get_workspace_bridge (env : Env) : M (option loc) :=
  g <- get ;;
  (if is_none (_pyobjc_bridge g)
      || is_none (_workspace_bridge g)
      || is_none (_application_bridge g)
   then
     t <- create_pyobjc_bridge env false ;;
     assign_globals t
   else ret tt) ;;
  g' <- get ;;
  ret (_workspace_bridge g').

(** Lines 158-174. *)
Definition get_application_bridge (env : Env) : M (option loc) :=
  g <- get ;;
  (if is_none (_pyobjc_bridge g)
      || is_none (_workspace_bridge g)
      || is_none (_application_bridge g)
   then
     t <- create_pyobjc_bridge env false ;;
     assign_globals t
   else ret tt) ;;
  g' <- get ;;
  ret (_application_bridge g').

(** Lines 177-186. *)
Definition reset_bridges : M unit :=
  fun s => (Return tt, with_slots None None None s).

(** Lines 189-207.  The parameters are bridges, as annotated; [None] is
    not one. *)
Definition set_bridge_instances (pyobjc_bridge workspace_bridge
    application_bridge : loc) : M unit :=
  fun s =>
    (Return tt,
     with_slots (Some pyobjc_bridge) (Some workspace_bridge)
       (Some application_bridge) s).

(** *** Calls and traces *)

Inductive accessor : Type :=
  | PyObjC
  | Workspace
  | Application.

Definition get_bridge (acc : accessor) (env : Env) : M (option loc) :=
  match acc with
  | PyObjC => get_pyobjc_bridge env
  | Workspace => get_workspace_bridge env
  | Application => get_application_bridge env
  end.

(** The global an accessor reads. *)
Definition slot (acc : accessor) (s : State) : option loc :=
  match acc with
  | PyObjC => _pyobjc_bridge s
  | Workspace => _workspace_bridge s
  | Application => _application_bridge s
  end.

(** A call of one of the module's functions. *)
Inductive call : Type :=
  | Call_create_fake_bridges_with_system
      (applications : gmap Z FakeAXUIElement)
      (running_apps : list FakeNSRunningApplication)
  | Call_create_pyobjc_bridge (force_fake : bool)
  | Call_get (acc : accessor)
  | Call_reset_bridges
  | Call_set_bridge_instances (p w a : loc).

Inductive value : Type :=
  | VNone
  | VRef (l : loc)
  | VTuple (p w a : loc).

Definition value_of_option (o : option loc) : value :=
  match o with
  | None => VNone
  | Some l => VRef l
  end.

Definition exec (env : Env) (c : call) : M value :=
  match c with
  | Call_create_fake_bridges_with_system apps running =>
      t <- create_fake_bridges_with_system apps running ;;
      ret (let '(p, w, a) := t in VTuple p w a)
  | Call_create_pyobjc_bridge force_fake =>
      t <- create_pyobjc_bridge env force_fake ;;
      ret (let '(p, w, a) := t in VTuple p w a)
  | Call_get acc =>
      o <- get_bridge acc env ;;
      ret (value_of_option o)
  | Call_reset_bridges => reset_bridges ;; ret VNone
  | Call_set_bridge_instances p w a =>
      set_bridge_instances p w a ;; ret VNone
  end.

(** A trace runs to its end: a caller may catch what a call raises. *)
Fixpoint run (t : list (Env * call)) (s : State)
  : list (outcome value) * State :=
  match t with
  | [] => ([], s)
  | (env, c) :: t' =>
      let '(r, s') := exec env c s in
      let '(rs, s'') := run t' s' in
      (r :: rs, s'')
  end.

(** The module as loaded: nothing allocated, the three globals [None]. *)
Definition initial_state : State :=
  {| heap := [];
     _pyobjc_bridge := None;
     _workspace_bridge := None;
     _application_bridge := None;
     log := [] |}.

Inductive reachable : State -> Prop :=
  | reachable_initial : reachable initial_state
  | reachable_call env c s :
      reachable s -> reachable (snd (exec env c s)).

(** *** The states of the triple *)

Definition all_set (s : State) : Prop :=
  is_Some (_pyobjc_bridge s) /\ is_Some (_workspace_bridge s)
  /\ is_Some (_application_bridge s).

Definition all_unset (s : State) : Prop :=
  _pyobjc_bridge s = None /\ _workspace_bridge s = None
  /\ _application_bridge s = None.

Definition some_unset (s : State) : Prop :=
  _pyobjc_bridge s = None \/ _workspace_bridge s = None
  \/ _application_bridge s = None.

Definition partially_initialized (s : State) : Prop :=
  ~ all_set s /\ ~ all_unset s.

Definition is_fake (o : obj) : bool :=
  match o with
  | FakePyObjCBridge _ | FakeWorkspaceBridge _ | FakeApplicationBridge =>
      true
  | _ => false
  end.

Definition is_real (o : obj) : bool :=
  match o with
  | RealPyObjCBridge | RealWorkspaceBridge | RealApplicationBridge => true
  | _ => false
  end.

(** A triple of fake bridges, each of its own capability and with no
    fixture. *)
Definition fake_triple (s : State) (t : loc * loc * loc) : Prop :=
  let '(p, w, a) := t in
  heap s !! p = Some FakePyObjCBridge_default
  /\ heap s !! w = Some FakeWorkspaceBridge_default
  /\ heap s !! a = Some FakeApplicationBridge.

Definition real_triple (s : State) (t : loc * loc * loc) : Prop :=
  let '(p, w, a) := t in
  heap s !! p = Some RealPyObjCBridge
  /\ heap s !! w = Some RealWorkspaceBridge
  /\ heap s !! a = Some RealApplicationBridge.

(** The three references are objects that did not exist in [s], and they
    are three different objects. *)
Definition fresh_triple (s : State) (t : loc * loc * loc) : Prop :=
  let '(p, w, a) := t in
  heap s !! p = None /\ heap s !! w = None /\ heap s !! a = None
  /\ p <> w /\ p <> a /\ w <> a.

(** New objects only: the three references did not exist, the objects
    that did are untouched, and the globals are as they were. *)
Definition constructs (s : State) (t : loc * loc * loc) (s' : State)
  : Prop :=
  fresh_triple s t
  /\ slots s' = slots s
  /\ (forall (l : loc) (o : obj), heap s !! l = Some o -> heap s' !! l = Some o).

Inductive mode : Type :=
  | Unset
  | Fake
  | Real.

(** The state of the singleton triple, as far as the three states of the
    specification describe it. *)
Definition in_mode (s : State) (m : mode) : Prop :=
  match m with
  | Unset => all_unset s
  | Fake =>
      exists p w a,
        slots s = (Some p, Some w, Some a) /\ fake_triple s (p, w, a)
  | Real =>
      exists p w a,
        slots s = (Some p, Some w, Some a) /\ real_triple s (p, w, a)
  end.
(** The member of a triple an accessor is for. *)
Definition component (acc : accessor) (t : loc * loc * loc) : loc :=
  let '(p, w, a) := t in
  match acc with
  | PyObjC => p
  | Workspace => w
  | Application => a
  end.

Definition is_reset_or_set (c : call) : bool :=
  match c with
  | Call_reset_bridges | Call_set_bridge_instances _ _ _ => true
  | _ => false
  end.

(** Every accessor call of the trace [t] was answered with the member of
    [(p, w, a)] it is for. *)
Definition injected_answers (p w a : loc) (t : list (Env * call))
    (rs : list (outcome value)) : Prop :=
  Forall2
    (fun (ec : Env * call) (r : outcome value) =>
       match snd ec with
       | Call_get acc => r = Return (VRef (component acc (p, w, a)))
       | _ => True
       end)
    t rs.

(** Mode selection for an accessor, which passes no [force_fake]: fake in
    test mode, else real, else fake again when the real construction
    fails with an [ImportError]; nothing is selected when it fails
    otherwise. *)
Definition selected_mode (env : Env) : option mode :=
  if is_test_mode env then Some Fake
  else
    match real_bridge_failure env with
    | None => Some Real
    | Some e => if isinstance_ImportError e then Some Fake else None
    end.

(** The accessor call constructs three new bridges of the selected mode,
    stores them in the three globals and returns its own; or, when the
    construction raises, it raises the same and leaves the globals. *)
Definition constructs_afresh (env : Env) (acc : accessor) (s : State)
  : Prop :=
  match selected_mode env with
  | Some m =>
      exists p w a s',
        get_bridge acc env s = (Return (Some (component acc (p, w, a))), s')
        /\ slots s' = (Some p, Some w, Some a)
        /\ fresh_triple s (p, w, a)
        /\ match m with
           | Fake => fake_triple s' (p, w, a)
           | Real => real_triple s' (p, w, a)
           | Unset => False
           end
  | None =>
      exists e s',
        get_bridge acc env s = (Raise e, s')
        /\ slots s' = slots s
        /\ real_bridge_failure env = Some e
  end.
End Bridges.

Arguments obj : clear implicits.
Arguments State : clear implicits.
Arguments M : clear implicits.
Arguments call : clear implicits.

(** ** The data model

    [models/types.py] is not among the sources; its tests are
    ([tests/models/test_types.py]).  The five models and their validation are
    modelled from sections 3, 4.1 and 6 of the specification, and checked
    against the tests. *)

(** A finite binary floating-point number, [mantissa * 2 ^ exponent]. *)
Record pyfloat : Type := { mantissa : Z; exponent : Z }.

(** The number as a fraction [float_num / float_den], the denominator a
    positive power of two. *)
Definition float_num (f : pyfloat) : Z :=
  if 0 <=? exponent f then mantissa f * 2 ^ exponent f else mantissa f.

Definition float_den (f : pyfloat) : Z :=
  if 0 <=? exponent f then 1 else 2 ^ (- exponent f).

(** [int(f)]: the fraction dropped, towards zero. *)
Definition float_trunc (f : pyfloat) : Z :=
  Z.quot (float_num f) (float_den f).

(** [f.is_integer()]. *)
Definition float_is_integer (f : pyfloat) : bool :=
  Z.rem (float_num f) (float_den f) =? 0.

(** [round(f)]: the nearest integer, a half to the even one; what
    truncation is told apart from. *)
Definition float_round (f : pyfloat) : Z :=
  let q := float_num f / float_den f in
  let r := float_num f mod float_den f in
  if 2 * r <? float_den f then q
  else if float_den f <? 2 * r then q + 1
  else if Z.even q then q else q + 1.

(** [z] is the integer part of [f]: of the sign of [f], and as large as
    [f] in magnitude allows. *)
Definition is_integer_part (f : pyfloat) (z : Z) : Prop :=
  Z.abs z * float_den f <= Z.abs (float_num f)
  /\ Z.abs (float_num f) < (Z.abs z + 1) * float_den f
  /\ 0 <= z * float_num f.

(** The floats the literals [10.7] and [20.3] denote. *)
Definition float_10_7 : pyfloat :=
  {| mantissa := 6023564501608038; exponent := -49 |}.

Definition float_20_3 : pyfloat :=
  {| mantissa := 5713942027226317; exponent := -48 |}.

(** A scalar, the [value] of a [UIElement]. *)
Inductive scalar : Type :=
  | SBool (b : bool)
  | SInt (z : Z)
  | SFloat (f : pyfloat)
  | SStr (s : string).

Module Position.
(** Modelled from the spec: [Position] of [models/types.py], which is not
    among the sources; integer [x] and [y] of any sign. *)
Record t : Type := make { x : Z; y : Z }.
End Position.

Module Size.
(** Modelled from the spec: [Size] of [models/types.py], which is not among
    the sources; integer [width] and [height], both at
    least 0. *)
Record t : Type := make { width : N; height : N }.
End Size.

Module UIElement.
(** Modelled from the spec: [UIElement] of [models/types.py], which is not
    among the sources; a node of the accessibility tree,
    with the fields of the serialized record shape of section 6. *)
Inductive t : Type := make {
  role : string;
  element_type : string;
  title : option string;
  ax_identifier : option string;
  enabled : option bool;
  focused : option bool;
  position : option Position.t;
  size : option Size.t;
  value : option scalar;
  actions : option (list string);
  children_count : option Z;
  children : option (list t)
}.
End UIElement.

Module WindowState.
(** Modelled from the spec: [WindowState] of [models/types.py], which is
    not among the sources; the root of a window's tree. *)
Record t : Type := make {
  title : string;
  window_id : Z;
  position : option Position.t;
  size : option Size.t;
  minimized : option bool;
  children : option (list UIElement.t)
}.
End WindowState.

Module MenuBarItem.
(** Modelled from the spec: [MenuBarItem] of [models/types.py], which is
    not among the sources; a menu with its submenu. *)
Inductive t : Type := make {
  title : string;
  enabled : bool;
  submenu : option (list t)
}.
End MenuBarItem.

(** An instance of one of the five models. *)
Inductive instance : Type :=
  | IPosition (p : Position.t)
  | ISize (s : Size.t)
  | IUIElement (e : UIElement.t)
  | IWindowState (w : WindowState.t)
  | IMenuBarItem (m : MenuBarItem.t).

(** The values a model is constructed from and serialized to: plain data
    ([None], booleans, integers, floats, strings, lists, dicts in insertion
    order) and, as input only, model instances. *)
Inductive pyval : Type :=
  | PNone
  | PBool (b : bool)
  | PInt (z : Z)
  | PFloat (f : pyfloat)
  | PStr (s : string)
  | PList (l : list pyval)
  | PDict (d : list (string * pyval))
  | PInstance (i : instance).

(** Keyword arguments, and the items of a dict. *)
Definition kwargs : Type := list (string * pyval).

(** The outcome of constructing a model: the instance, or a
    [ValidationError] naming the offending field. *)
Inductive validated (A : Type) : Type :=
  | Ok (a : A)
  | ValidationError (field : string).
Arguments Ok {A} a.
Arguments ValidationError {A} field.

Definition vbind {A B} (m : validated A) (k : A -> validated B)
  : validated B :=
  match m with
  | Ok a => k a
  | ValidationError f => ValidationError f
  end.

Definition to_option {A} (m : validated A) : option A :=
  match m with
  | Ok a => Some a
  | ValidationError _ => None
  end.

Definition is_ok {A} (m : validated A) : bool :=
  match m with
  | Ok _ => true
  | ValidationError _ => false
  end.

Declare Scope validated_scope.
Delimit Scope validated_scope with validated.
Notation "x <~ c1 ;; c2" := (vbind c1 (fun x => c2))
  (at level 100, c1 at next level, right associativity) : validated_scope.

(** [d.get(k)], the first item with key [k]. *)
Fixpoint dict_get (k : string) (d : kwargs) : option pyval :=
  match d with
  | [] => None
  | (k', v) :: d' => if String.eqb k' k then Some v else dict_get k d'
  end.

(** The item with key [k] handed to [f], [absent] when there is none.  It is
    [dict_get] fused with its continuation, so that a validator can descend
    into the value it finds. *)
Definition on_field {B} (k : string) (f : pyval -> B) (absent : B)
  : kwargs -> B :=
  fix go (d : kwargs) : B :=
    match d with
    | [] => absent
    | (k', v) :: d' => if String.eqb k' k then f v else go d'
    end.

(** A required field: it is present and its value coerces. *)
Definition required {A} (k : string) (coerce : pyval -> option A)
    (d : kwargs) : validated A :=
  on_field k
    (fun v =>
       match coerce v with
       | Some a => Ok a
       | None => ValidationError k
       end)
    (ValidationError k) d.

(** An optional field: absent or [None] it is unset, otherwise its value
    coerces. *)
Definition optional {A} (k : string) (coerce : pyval -> option A)
    (d : kwargs) : validated (option A) :=
  on_field k
    (fun v =>
       match v with
       | PNone => Ok None
       | _ =>
           match coerce v with
           | Some a => Ok (Some a)
           | None => ValidationError k
           end
       end)
    (Ok None) d.

(** Every item of a list coerces. *)
Definition traverse {A B} (f : A -> option B) : list A -> option (list B) :=
  fix go (l : list A) : option (list B) :=
    match l with
    | [] => Some []
    | a :: l' =>
        match f a, go l' with
        | Some b, Some bs => Some (b :: bs)
        | _, _ => None
        end
    end.

Definition coerce_list {B} (f : pyval -> option B) (v : pyval)
  : option (list B) :=
  match v with
  | PList l => traverse f l
  | _ => None
  end.

(** *** Coercion rules (section 4.1) *)

(** Modelled from the spec: a string field takes a string. *)
Definition coerce_str (v : pyval) : option string :=
  match v with
  | PStr s => Some s
  | _ => None
  end.

(** Modelled from the spec: a boolean field rejects every value that is not
    a boolean. *)
Definition coerce_bool (v : pyval) : option bool :=
  match v with
  | PBool b => Some b
  | _ => None
  end.

(** Modelled from the spec: a numeric field takes an integer or an
    integer-valued float, and rejects what is not a number. *)
Definition coerce_int (v : pyval) : option Z :=
  match v with
  | PInt z => Some z
  | PFloat f => if float_is_integer f then Some (float_trunc f) else None
  | _ => None
  end.

(** Modelled from the spec: a coordinate of a [Position] takes an integer of
    any sign, and a float is truncated. *)
Definition coerce_coordinate (v : pyval) : option Z :=
  match v with
  | PInt z => Some z
  | PFloat f => Some (float_trunc f)
  | _ => None
  end.

(** The coordinate the specification asks for: an integer as it is, a
    float by its integer part. *)
Definition coordinate_input (v : pyval) (z : Z) : Prop :=
  match v with
  | PInt n => z = n
  | PFloat f => is_integer_part f z
  | _ => False
  end.

(** Modelled from the spec: a dimension of a [Size] is a numeric field that
    is at least 0. *)
Definition coerce_dimension (v : pyval) : option N :=
  match coerce_int v with
  | Some z => if 0 <=? z then Some (Z.to_N z) else None
  | None => None
  end.

(** Modelled from the spec: [value] is any serializable scalar. *)
Definition coerce_scalar (v : pyval) : option scalar :=
  match v with
  | PBool b => Some (SBool b)
  | PInt z => Some (SInt z)
  | PFloat f => Some (SFloat f)
  | PStr s => Some (SStr s)
  | _ => None
  end.

Local Open Scope validated_scope.

(** *** Construction *)

(** Modelled from the spec: the validation of [Position], missing with
    [models/types.py]; [Position] constructed from the keyword arguments
    [d]. *)
Definition Position_validate (d : kwargs) : validated Position.t :=
  x <~ required "x" coerce_coordinate d ;;
  y <~ required "y" coerce_coordinate d ;;
  Ok (Position.make x y).

(** A field that holds a [Position]: an instance, or a dict of its fields. *)
Definition coerce_Position (v : pyval) : option Position.t :=
  match v with
  | PInstance (IPosition p) => Some p
  | PDict d => to_option (Position_validate d)
  | _ => None
  end.

(** Modelled from the spec: the validation of [Size], missing with
    [models/types.py]; [Size] constructed from the keyword arguments [d]. *)
Definition Size_validate (d : kwargs) : validated Size.t :=
  width <~ required "width" coerce_dimension d ;;
  height <~ required "height" coerce_dimension d ;;
  Ok (Size.make width height).

Definition coerce_Size (v : pyval) : option Size.t :=
  match v with
  | PInstance (ISize s) => Some s
  | PDict d => to_option (Size_validate d)
  | _ => None
  end.

(** Modelled from the spec: the validation of [UIElement], missing with
    [models/types.py]; its fields in the order declared, [self] validating
    a child. *)
Definition UIElement_fields (self : pyval -> option UIElement.t) (d : kwargs)
  : validated UIElement.t :=
  role <~ required "role" coerce_str d ;;
  element_type <~ required "element_type" coerce_str d ;;
  title <~ optional "title" coerce_str d ;;
  ax_identifier <~ optional "ax_identifier" coerce_str d ;;
  enabled <~ optional "enabled" coerce_bool d ;;
  focused <~ optional "focused" coerce_bool d ;;
  position <~ optional "position" coerce_Position d ;;
  size <~ optional "size" coerce_Size d ;;
  value <~ optional "value" coerce_scalar d ;;
  actions <~ optional "actions" (coerce_list coerce_str) d ;;
  children_count <~ optional "children_count" coerce_int d ;;
  children <~ optional "children" (coerce_list self) d ;;
  Ok (UIElement.make role element_type title ax_identifier enabled focused
        position size value actions children_count children).

(** A field that holds a [UIElement]: an instance, or a dict of its fields,
    the [children] validated in turn. *)
Fixpoint coerce_UIElement (v : pyval) : option UIElement.t :=
  match v with
  | PInstance (IUIElement e) => Some e
  | PDict d => to_option (UIElement_fields coerce_UIElement d)
  | _ => None
  end.

(** [UIElement] constructed from the keyword arguments [d]. *)
Definition UIElement_validate (d : kwargs) : validated UIElement.t :=
  UIElement_fields coerce_UIElement d.

(** Modelled from the spec: the validation of [WindowState], missing with
    [models/types.py]; [WindowState] constructed from the keyword arguments
    [d]. *)
Definition WindowState_validate (d : kwargs) : validated WindowState.t :=
  title <~ required "title" coerce_str d ;;
  window_id <~ required "window_id" coerce_int d ;;
  position <~ optional "position" coerce_Position d ;;
  size <~ optional "size" coerce_Size d ;;
  minimized <~ optional "minimized" coerce_bool d ;;
  children <~ optional "children" (coerce_list coerce_UIElement) d ;;
  Ok (WindowState.make title window_id position size minimized children).

(** Modelled from the spec: the validation of [MenuBarItem], missing with
    [models/types.py]; its fields, [self] validating an item of the
    submenu. *)
Definition MenuBarItem_fields (self : pyval -> option MenuBarItem.t)
    (d : kwargs) : validated MenuBarItem.t :=
  title <~ required "title" coerce_str d ;;
  enabled <~ required "enabled" coerce_bool d ;;
  submenu <~ optional "submenu" (coerce_list self) d ;;
  Ok (MenuBarItem.make title enabled submenu).

Fixpoint coerce_MenuBarItem (v : pyval) : option MenuBarItem.t :=
  match v with
  | PInstance (IMenuBarItem m) => Some m
  | PDict d => to_option (MenuBarItem_fields coerce_MenuBarItem d)
  | _ => None
  end.

(** [MenuBarItem] constructed from the keyword arguments [d]. *)
Definition MenuBarItem_validate (d : kwargs) : validated MenuBarItem.t :=
  MenuBarItem_fields coerce_MenuBarItem d.

(** *** Serialization *)

(** Modelled from the spec: serialization, missing with [models/types.py].
    An optional field of [model_dump]: [None] is written as an explicit
    [None], or left out when [exclude_none] is set. *)
Definition dump_optional (exclude_none : bool) (k : string)
    (o : option pyval) : kwargs :=
  match o with
  | Some v => [(k, v)]
  | None => if exclude_none then [] else [(k, PNone)]
  end.

Definition scalar_dump (v : scalar) : pyval :=
  match v with
  | SBool b => PBool b
  | SInt z => PInt z
  | SFloat f => PFloat f
  | SStr s => PStr s
  end.

Definition Position_model_dump (p : Position.t) : kwargs :=
  [("x", PInt (Position.x p)); ("y", PInt (Position.y p))].

Definition Size_model_dump (s : Size.t) : kwargs :=
  [("width", PInt (Z.of_N (Size.width s)));
   ("height", PInt (Z.of_N (Size.height s)))].

Fixpoint UIElement_model_dump (exclude_none : bool) (e : UIElement.t)
  : kwargs :=
  match e with
  | UIElement.make role element_type title ax_identifier enabled focused
      position size value actions children_count children =>
      ([("role", PStr role); ("element_type", PStr element_type)]
      ++ dump_optional exclude_none "title" (option_map PStr title)
      ++ dump_optional exclude_none "ax_identifier"
           (option_map PStr ax_identifier)
      ++ dump_optional exclude_none "enabled" (option_map PBool enabled)
      ++ dump_optional exclude_none "focused" (option_map PBool focused)
      ++ dump_optional exclude_none "position"
           (option_map (fun p => PDict (Position_model_dump p)) position)
      ++ dump_optional exclude_none "size"
           (option_map (fun s => PDict (Size_model_dump s)) size)
      ++ dump_optional exclude_none "value" (option_map scalar_dump value)
      ++ dump_optional exclude_none "actions"
           (option_map (fun l => PList (map PStr l)) actions)
      ++ dump_optional exclude_none "children_count"
           (option_map PInt children_count)
      ++ dump_optional exclude_none "children"
           (option_map
              (fun l =>
                 PList
                   (map (fun c => PDict (UIElement_model_dump exclude_none c))
                      l))
              children))%list
  end.

Definition WindowState_model_dump (exclude_none : bool) (w : WindowState.t)
  : kwargs :=
  ([("title", PStr (WindowState.title w));
    ("window_id", PInt (WindowState.window_id w))]
  ++ dump_optional exclude_none "position"
       (option_map (fun p => PDict (Position_model_dump p))
          (WindowState.position w))
  ++ dump_optional exclude_none "size"
       (option_map (fun s => PDict (Size_model_dump s)) (WindowState.size w))
  ++ dump_optional exclude_none "minimized"
       (option_map PBool (WindowState.minimized w))
  ++ dump_optional exclude_none "children"
       (option_map
          (fun l =>
             PList
               (map (fun c => PDict (UIElement_model_dump exclude_none c)) l))
          (WindowState.children w)))%list.

Fixpoint MenuBarItem_model_dump (exclude_none : bool) (m : MenuBarItem.t)
  : kwargs :=
  match m with
  | MenuBarItem.make title enabled submenu =>
      ([("title", PStr title); ("enabled", PBool enabled)]
      ++ dump_optional exclude_none "submenu"
           (option_map
              (fun l =>
                 PList
                   (map
                      (fun c => PDict (MenuBarItem_model_dump exclude_none c))
                      l))
              submenu))%list
  end.

(** *** The five models together *)

Inductive model : Type :=
  | MPosition
  | MSize
  | MUIElement
  | MWindowState
  | MMenuBarItem.

Definition model_of (i : instance) : model :=
  match i with
  | IPosition _ => MPosition
  | ISize _ => MSize
  | IUIElement _ => MUIElement
  | IWindowState _ => MWindowState
  | IMenuBarItem _ => MMenuBarItem
  end.

Definition vmap {A B} (f : A -> B) (m : validated A) : validated B :=
  match m with
  | Ok a => Ok (f a)
  | ValidationError k => ValidationError k
  end.

(** The model [m] constructed from the keyword arguments [d]. *)
Definition construct (m : model) (d : kwargs) : validated instance :=
  match m with
  | MPosition => vmap IPosition (Position_validate d)
  | MSize => vmap ISize (Size_validate d)
  | MUIElement => vmap IUIElement (UIElement_validate d)
  | MWindowState => vmap IWindowState (WindowState_validate d)
  | MMenuBarItem => vmap IMenuBarItem (MenuBarItem_validate d)
  end.

(** [i.model_dump(exclude_none=...)]. *)
Definition model_dump (exclude_none : bool) (i : instance) : kwargs :=
  match i with
  | IPosition p => Position_model_dump p
  | ISize s => Size_model_dump s
  | IUIElement e => UIElement_model_dump exclude_none e
  | IWindowState w => WindowState_model_dump exclude_none w
  | IMenuBarItem m => MenuBarItem_model_dump exclude_none m
  end.

(** *** The declared fields *)

Inductive ftype : Type :=
  | TStr
  | TBool
  | TInt
  | TCoordinate
  | TDimension
  | TScalar
  | TList (t : ftype)
  | TModel (m : model).

(** A field: its name, whether it is required, its declared type. *)
Definition fields (m : model) : list (string * bool * ftype) :=
  match m with
  | MPosition => [("x", true, TCoordinate); ("y", true, TCoordinate)]
  | MSize => [("width", true, TDimension); ("height", true, TDimension)]
  | MUIElement =>
      [("role", true, TStr); ("element_type", true, TStr);
       ("title", false, TStr); ("ax_identifier", false, TStr);
       ("enabled", false, TBool); ("focused", false, TBool);
       ("position", false, TModel MPosition); ("size", false, TModel MSize);
       ("value", false, TScalar); ("actions", false, TList TStr);
       ("children_count", false, TInt);
       ("children", false, TList (TModel MUIElement))]
  | MWindowState =>
      [("title", true, TStr); ("window_id", true, TInt);
       ("position", false, TModel MPosition); ("size", false, TModel MSize);
       ("minimized", false, TBool);
       ("children", false, TList (TModel MUIElement))]
  | MMenuBarItem =>
      [("title", true, TStr); ("enabled", true, TBool);
       ("submenu", false, TList (TModel MMenuBarItem))]
  end.

(** Whether a value can be coerced to a declared type. *)
Fixpoint coercible (t : ftype) (v : pyval) : bool :=
  match t, v with
  | TStr, PStr _ => true
  | TBool, PBool _ => true
  | TInt, PInt _ => true
  | TInt, PFloat f => float_is_integer f
  | TCoordinate, (PInt _ | PFloat _) => true
  | TDimension, PInt z => 0 <=? z
  | TDimension, PFloat f => float_is_integer f && (0 <=? float_trunc f)
  | TScalar, (PBool _ | PInt _ | PFloat _ | PStr _) => true
  | TList t', PList l => forallb (coercible t') l
  | TModel m, PInstance i =>
      match m, i with
      | MPosition, IPosition _ | MSize, ISize _ | MUIElement, IUIElement _
      | MWindowState, IWindowState _ | MMenuBarItem, IMenuBarItem _ => true
      | _, _ => false
      end
  | TModel m, PDict d => is_ok (construct m d)
  | _, _ => false
  end.

(** Whether a field takes a value: an optional field also takes [None]. *)
Definition accepts (is_required : bool) (t : ftype) (v : pyval) : bool :=
  match is_required, v with
  | false, PNone => true
  | _, _ => coercible t v
  end.

(** The field [k], required or not and of type [t], is missing though
    required, or holds a value it does not take. *)
Definition field_bad (k : string) (is_required : bool) (t : ftype)
    (d : kwargs) : Prop :=
  match dict_get k d with
  | None => is_required = true
  | Some v => accepts is_required t v = false
  end.

(** The field [k] is there if it has to be, and holds a value it takes. *)
Definition field_ok (k : string) (is_required : bool) (t : ftype)
    (d : kwargs) : Prop :=
  match dict_get k d with
  | None => is_required = false
  | Some v => accepts is_required t v = true
  end.

(** [k] is an offending field of the model [m] in the keyword arguments
    [d]. *)
Definition offending (m : model) (d : kwargs) (k : string) : Prop :=
  exists is_required t,
    In (k, is_required, t) (fields m) /\ field_bad k is_required t d.

(** A coercion function and the declared type it stands for. *)
Definition agrees {A} (c : pyval -> option A) (t : ftype) : Prop :=
  forall v, is_none (c v) = negb (coercible t v).

(** The warning of line 105, with its cause. *)
Definition import_warning (e : exc) : log_record :=
  LogWarning "Failed to import real PyObjC bridge: %s" e.

(** ** mcp_server_wrapper.py

    The wrapper script: it reports its surroundings on [stderr], makes the
    script's directory the working directory, puts [src] on [sys.path],
    checks two paths, then imports and runs the server; an exception ends
    the process with status 1. *)

(** What a call of the script can raise: [SystemExit] with its code, an
    exception deriving from [Exception], or another [BaseException] such as
    [KeyboardInterrupt]. *)
Inductive raised : Type :=
  | SystemExit (code : Z)
  | Exception_ (e : exc)
  | BaseException_ (name : string).

Inductive result (A : Type) : Type :=
  | Returns (a : A)
  | Raises (r : raised).
Arguments Returns {A} a.
Arguments Raises {A} r.

(** What is written to [sys.stderr]: a line of text, or the traceback of an
    exception as [traceback.print_exc] prints it. *)
Inductive stderr_item : Type :=
  | Line (text : string)
  | Traceback (e : exc).

(** The process state the script reads and writes; [ticks] counts the
    readings of the clock. *)
Record WrapperState : Type := {
  cwd : string;
  sys_path : list string;
  stderr : list stderr_item;
  ticks : nat
}.

Definition W (A : Type) : Type := WrapperState -> result A * WrapperState.

(** The surroundings of the script: the clock, the interpreter, the
    environment variable [PATH], the directory of the script file
    ([os.path.dirname(os.path.abspath(__file__))]), the file system, whether
    [os.chdir] raises, the [repr] of a list of strings, and what importing
    the server module and calling its [main] do. *)
Record WrapperEnv : Type := {
  now : nat -> string;
  sys_executable : string;
  sys_version : string;
  environ_PATH : option string;
  script_dir : string;
  path_exists : string -> bool;
  chdir_raises : option exc;
  repr_list : list string -> string;
  import_server : W unit;
  server_main : W unit
}.

(** The same surroundings with another server behind the import. *)
Definition with_server (imp srv : W unit) (env : WrapperEnv) : WrapperEnv :=
  {| now := now env;
     sys_executable := sys_executable env;
     sys_version := sys_version env;
     environ_PATH := environ_PATH env;
     script_dir := script_dir env;
     path_exists := path_exists env;
     chdir_raises := chdir_raises env;
     repr_list := repr_list env;
     import_server := imp;
     server_main := srv |}.

Definition W_ret {A} (a : A) : W A := fun s => (Returns a, s).

Definition W_bind {A B} (m : W A) (k : A -> W B) : W B :=
  fun s =>
    match m s with
    | (Returns a, s') => k a s'
    | (Raises r, s') => (Raises r, s')
    end.

Definition W_raise {A} (r : raised) : W A := fun s => (Raises r, s).

Definition W_get : W WrapperState := fun s => (Returns s, s).

(** [sys.exit(code)]. *)
Definition sys_exit (code : Z) : W unit := W_raise (SystemExit code).

(** [print(..., file=sys.stderr)]. *)
Definition print_stderr (i : stderr_item) : W unit :=
  fun s =>
    (Returns tt,
     {| cwd := cwd s;
        sys_path := sys_path s;
        stderr := stderr s ++ [i];
        ticks := ticks s |}).

(** [datetime.now().isoformat()]. *)
Definition datetime_now_isoformat (env : WrapperEnv) : W string :=
  fun s =>
    (Returns (now env (ticks s)),
     {| cwd := cwd s;
        sys_path := sys_path s;
        stderr := stderr s;
        ticks := S (ticks s) |}).

(** [os.chdir(d)]. *)
Definition os_chdir (env : WrapperEnv) (d : string) : W unit :=
  fun s =>
    match chdir_raises env with
    | Some e => (Raises (Exception_ e), s)
    | None =>
        (Returns tt,
         {| cwd := d;
            sys_path := sys_path s;
            stderr := stderr s;
            ticks := ticks s |})
    end.

(** [sys.path.insert(0, d)]. *)
Definition sys_path_insert_0 (d : string) : W unit :=
  fun s =>
    (Returns tt,
     {| cwd := cwd s;
        sys_path := d :: sys_path s;
        stderr := stderr s;
        ticks := ticks s |}).

Fixpoint ends_with_sep (a : string) : bool :=
  match a with
  | EmptyString => false
  | String c EmptyString => String.eqb (String c EmptyString) "/"
  | String _ a' => ends_with_sep a'
  end.

(** [os.path.join(a, b)] of [posixpath]. *)
Definition os_path_join (a b : string) : string :=
  if String.prefix "/" b then b
  else
    match a with
    | EmptyString => b
    | _ => if ends_with_sep a then a +:+ b else a +:+ "/" +:+ b
    end.

Section Wrapper.
Local Notation "x <- c1 ;; c2" := (W_bind c1 (fun x => c2))
  (at level 100, c1 at next level, right associativity).
Local Notation "c1 ;; c2" := (W_bind c1 (fun _ => c2))
  (at level 100, right associativity).

(** Lines 12-15. *)
Definition log_debug (env : WrapperEnv) (message : string) : W unit :=
  timestamp <- datetime_now_isoformat env ;;
  print_stderr (Line ("[" +:+ timestamp +:+ "] WRAPPER DEBUG: " +:+ message)).

(** Lines 28 and 36: the two directories, and line 47: the file looked
    for. *)
Definition src_dir (env : WrapperEnv) : string :=
  os_path_join (script_dir env) "src".

Definition mcp_server_path (env : WrapperEnv) : string :=
  os_path_join (os_path_join (src_dir env) "macos_ui_automation")
    "mcp_server.py".

(** Lines 19-52 of [main]: everything before the import. *)
Definition main_prepare (env : WrapperEnv) : W unit :=
  log_debug env "=== MCP Server Wrapper Starting ===" ;;
  log_debug env ("Python executable: " +:+ sys_executable env) ;;
  log_debug env ("Python version: " +:+ sys_version env) ;;
  g <- W_get ;;
  log_debug env ("Working directory: " +:+ cwd g) ;;
  log_debug env
    ("Python path: " +:+ repr_list env (take 3 (sys_path g)) +:+ "...") ;;
  log_debug env
    ("Environment PATH: "
     +:+ String.substring 0 100 (default "" (environ_PATH env)) +:+ "...") ;;
  log_debug env ("Script directory: " +:+ script_dir env) ;;
  os_chdir env (script_dir env) ;;
  log_debug env ("Changed working directory to: " +:+ script_dir env) ;;
  g <- W_get ;;
  (if bool_decide (src_dir env ∈ sys_path g) then W_ret tt
   else
     sys_path_insert_0 (src_dir env) ;;
     log_debug env ("Added src directory to path: " +:+ src_dir env)) ;;
  (if path_exists env (src_dir env) then W_ret tt
   else
     log_debug env
       ("ERROR: src directory does not exist: " +:+ src_dir env) ;;
     sys_exit 1) ;;
  (if path_exists env (mcp_server_path env) then W_ret tt
   else
     log_debug env
       ("ERROR: MCP server module does not exist: "
        +:+ mcp_server_path env) ;;
     sys_exit 1) ;;
  log_debug env ("MCP server module found: " +:+ mcp_server_path env).

(** Lines 55-59 of [main]: the import of
    [macos_ui_automation.interfaces.mcp_server] and the call of its
    [main]. *)
Definition main_launch (env : WrapperEnv) : W unit :=
  log_debug env "Importing MCP server..." ;;
  import_server env ;;
  log_debug env "Starting MCP server..." ;;
  server_main env.

(** Lines 61-65: [except ImportError as e]. *)
Definition on_ImportError (env : WrapperEnv) (e : exc) : W unit :=
  log_debug env ("Import error: " +:+ exc_msg e) ;;
  g <- W_get ;;
  log_debug env ("Current sys.path: " +:+ repr_list env (sys_path g)) ;;
  print_stderr (Traceback e) ;;
  sys_exit 1.

(** Lines 66-69: [except Exception as e]. *)
Definition on_Exception (env : WrapperEnv) (e : exc) : W unit :=
  log_debug env ("Unexpected error: " +:+ exc_msg e) ;;
  print_stderr (Traceback e) ;;
  sys_exit 1.

(** Lines 17-69.  The two handlers catch what derives from [Exception];
    [SystemExit] and the other base exceptions pass. *)
Definition main (env : WrapperEnv) : W unit :=
  fun s =>
    match (main_prepare env ;; main_launch env) s with
    | (Raises (Exception_ e), s') =>
        if isinstance_ImportError e then on_ImportError env e s'
        else on_Exception env e s'
    | other => other
    end.
End Wrapper.

(** The lines [log_debug] writes: the timestamp in brackets, the tag, the
    message. *)
Definition is_debug_line (i : stderr_item) : Prop :=
  exists timestamp message,
    i = Line ("[" +:+ timestamp +:+ "] WRAPPER DEBUG: " +:+ message).

(** ** Sample environments and states

    A fixture element stands for its role, a running application for its
    process identifier. *)

(** The native binding is missing: importing [.real_bridge] raises
    [ImportError]. *)
Definition env_missing_binding : Env :=
  {| is_test_mode := false;
     import_real_bridge :=
       Some (Exc ImportError "No module named 'ApplicationServices'");
     init_RealPyObjCBridge := None;
     init_RealWorkspaceBridge := None;
     init_RealApplicationBridge := None |}.

(** The binding loads, and the second real constructor raises a
    [RuntimeError]. *)
Definition env_broken_binding : Env :=
  {| is_test_mode := false;
     import_real_bridge := None;
     init_RealPyObjCBridge := None;
     init_RealWorkspaceBridge :=
       Some (Exc (OtherException "RuntimeError") "accessibility denied");
     init_RealApplicationBridge := None |}.

(** The test mode is on. *)
Definition env_test_mode : Env :=
  {| is_test_mode := true;
     import_real_bridge := None;
     init_RealPyObjCBridge := None;
     init_RealWorkspaceBridge := None;
     init_RealApplicationBridge := None |}.

(** The module as loaded. *)
Definition state_loaded : State string Z := initial_state.

(** A test has built a fixture with one application, pid 100 and an
    [AXButton], and has injected the three bridges. *)
Definition state_injected : State string Z :=
  snd (bind (create_fake_bridges_with_system {[ 100 := "AXButton" ]} [100])
         (fun t => let '(p, w, a) := t in set_bridge_instances p w a)
         state_loaded).

(** Calls that are neither a reset nor an injection. *)
Definition sample_trace : list (Env * call string Z) :=
  [(env_test_mode, Call_get PyObjC);
   (env_missing_binding, Call_create_pyobjc_bridge true);
   (env_broken_binding, Call_create_fake_bridges_with_system ∅ []);
   (env_broken_binding, Call_get Application);
   (env_test_mode, Call_get Workspace)].

(** The native binding is there and the test mode is off. *)
Definition env_native : Env :=
  {| is_test_mode := false;
     import_real_bridge := None;
     init_RealPyObjCBridge := None;
     init_RealWorkspaceBridge := None;
     init_RealApplicationBridge := None |}.

(** The module after a first accessor call with the native binding. *)
Definition state_real : State string Z :=
  snd (get_pyobjc_bridge env_native state_loaded).

(** The script installed in [/opt/mcp], started from [/] on a given file
    system, with a given server behind the import. *)
Definition wrapper_env (files : list string) (imp srv : W unit)
  : WrapperEnv :=
  {| now := fun n => "2025-01-01T00:00:0" +:+ pretty n;
     sys_executable := "/usr/bin/python3";
     sys_version := "3.12.0";
     environ_PATH := Some "/usr/bin:/bin";
     script_dir := "/opt/mcp";
     path_exists := fun f => bool_decide (f ∈ files);
     chdir_raises := None;
     repr_list := String.concat ", ";
     import_server := imp;
     server_main := srv |}.

Definition wrapper_start : WrapperState :=
  {| cwd := "/";
     sys_path := ["/usr/lib/python3.12"];
     stderr := [];
     ticks := 0 |}.

(** The checkout as the import needs it: the server module is under
    [interfaces]. *)
Definition checkout_files : list string :=
  ["/opt/mcp/src";
   "/opt/mcp/src/macos_ui_automation/interfaces/mcp_server.py"].

(** The same with the file the wrapper looks for. *)
Definition checkout_with_checked_file : list string :=
  "/opt/mcp/src/macos_ui_automation/mcp_server.py" :: checkout_files.

(** A server that fails with a [RuntimeError]. *)
Definition failing_server : W unit :=
  W_raise (Exception_ (Exc (OtherException "RuntimeError") "no display")).

(** The text field of [test_element_serialization]. *)
Definition text_field : UIElement.t :=
  UIElement.make "AXTextField" "textfield" (Some "Username") None None None
    (Some (Position.make 50 100)) (Some (Size.make 200 25)) None None None
    None.

(** * Part II: theorems *)

(** ** The factory *)

Section FactoryFacts.
Context {FakeAXUIElement FakeNSRunningApplication : Type}.

Local Abbreviation State := (State FakeAXUIElement FakeNSRunningApplication).
Local Abbreviation obj := (obj FakeAXUIElement FakeNSRunningApplication).

Implicit Types (s : State) (o : obj) (env : Env) (e : exc).

Lemma new3_run o1 o2 o3 s :
  bind (new o1) (fun p =>
    bind (new o2) (fun w =>
      bind (new o3) (fun a => ret (p, w, a)))) s
  = (Return (length (heap s), S (length (heap s)),
             S (S (length (heap s)))),
     alloc3 o1 o2 o3 s).
Proof.
  destruct s as [h p w a l]. unfold bind, new, ret, alloc3, with_heap.
  simpl. rewrite !length_app. simpl. rewrite <- !app_assoc. simpl.
  repeat f_equal; lia.
Qed.

Lemma alloc3_fresh o1 o2 o3 s :
  fresh_triple s
    (length (heap s), S (length (heap s)), S (S (length (heap s)))).
Proof.
  unfold fresh_triple.
  repeat split; try (apply lookup_ge_None_2; lia); lia.
Qed.

Lemma alloc3_lookup o1 o2 o3 s :
  heap (alloc3 o1 o2 o3 s) !! length (heap s) = Some o1
  /\ heap (alloc3 o1 o2 o3 s) !! S (length (heap s)) = Some o2
  /\ heap (alloc3 o1 o2 o3 s) !! S (S (length (heap s))) = Some o3.
Proof.
  unfold alloc3, with_heap. simpl. repeat split.
  - apply (list_lookup_middle _ [o2; o3]). reflexivity.
  - change (heap s ++ [o1; o2; o3]) with (heap s ++ [o1] ++ o2 :: [o3]).
    rewrite app_assoc. apply list_lookup_middle.
    rewrite length_app. simpl. lia.
  - change (heap s ++ [o1; o2; o3]) with (heap s ++ [o1; o2] ++ o3 :: []).
    rewrite app_assoc. apply list_lookup_middle.
    rewrite length_app. simpl. lia.
Qed.

Lemma alloc3_old o1 o2 o3 s (l : loc) o :
  heap s !! l = Some o -> heap (alloc3 o1 o2 o3 s) !! l = Some o.
Proof.
  intros H. unfold alloc3, with_heap. simpl.
  apply lookup_app_l_Some. exact H.
Qed.

Lemma create_fake_bridges_with_system_run
    (applications : gmap Z FakeAXUIElement)
    (running_apps : list FakeNSRunningApplication) s :
  exists t,
    create_fake_bridges_with_system applications running_apps s
    = (Return t,
       alloc3 (FakePyObjCBridge applications)
         (FakeWorkspaceBridge running_apps) FakeApplicationBridge s).
Proof.
  unfold create_fake_bridges_with_system. eexists. apply new3_run.
Qed.

(** *** The paths of [create_pyobjc_bridge] *)

Ltac run_monad :=
  unfold create_pyobjc_bridge, try_except_ImportError, bind, get, ret,
    raise, logger_info, logger_warning, py_import, call_init, new in *;
  simpl in *.

Lemma create_reuse env force_fake s p w a :
  use_fake env force_fake = true ->
  slots s = (Some p, Some w, Some a) ->
  create_pyobjc_bridge env force_fake s = (Return (p, w, a), s).
Proof.
  unfold use_fake, slots. intros Hf Hs. inversion Hs as [[Hp Hw Ha]].
  run_monad. rewrite Hf, Hp, Hw, Ha. reflexivity.
Qed.

Lemma create_fake env force_fake s :
  use_fake env force_fake = true ->
  some_unset s ->
  create_pyobjc_bridge env force_fake s
  = (Return (length (heap s), S (length (heap s)),
             S (S (length (heap s)))),
     alloc3 FakePyObjCBridge_default FakeWorkspaceBridge_default
       FakeApplicationBridge
       (with_log (log s ++ [LogInfo "Using fake PyObjC bridge for testing"])
          s)).
Proof.
  unfold use_fake. intros Hf Hs.
  transitivity
    (bind (logger_info "Using fake PyObjC bridge for testing")
       (fun _ =>
          bind (new FakePyObjCBridge_default) (fun p =>
            bind (new FakeWorkspaceBridge_default) (fun w =>
              bind (new FakeApplicationBridge) (fun a => ret (p, w, a)))))
       s).
  - unfold create_pyobjc_bridge. unfold bind at 1. unfold get at 1.
    rewrite Hf.
    destruct s as [h [p|] [w|] [a|] l]; simpl in *; try reflexivity.
    destruct Hs as [H | [H | H]]; discriminate.
  - unfold bind at 1. unfold logger_info at 1. rewrite new3_run.
    reflexivity.
Qed.

Lemma create_real_ok env force_fake s :
  use_fake env force_fake = false ->
  real_bridge_failure env = None ->
  create_pyobjc_bridge env force_fake s
  = (Return (length (heap s), S (length (heap s)),
             S (S (length (heap s)))),
     alloc3 RealPyObjCBridge RealWorkspaceBridge RealApplicationBridge
       (with_log (log s ++ [LogInfo "Using real PyObjC bridge"]) s)).
Proof.
  unfold use_fake, real_bridge_failure. intros Hf Hr.
  destruct env as [tm [e0|] [e1|] [e2|] [e3|]]; simpl in *;
    try discriminate.
  destruct s as [h p w a l]. run_monad. rewrite Hf.
  unfold alloc3, with_heap, with_log. simpl.
  rewrite !length_app. simpl. rewrite <- !app_assoc. simpl.
  repeat f_equal; lia.
Qed.

Lemma create_real_raise env force_fake s e :
  use_fake env force_fake = false ->
  real_bridge_failure env = Some e ->
  isinstance_ImportError e = false ->
  exists g,
    create_pyobjc_bridge env force_fake s = (Raise e, real_started g s).
Proof.
  unfold use_fake, real_bridge_failure. intros Hf Hr Hi.
  destruct s as [h p w a l].
  destruct env as [tm [e0|] [e1|] [e2|] [e3|]]; simpl in *;
    inversion Hr; subst; clear Hr; run_monad; rewrite Hf, Hi;
    unfold real_started, with_heap, with_log; simpl.
  1-8: exists []; rewrite app_nil_r; reflexivity.
  1-4: exists []; rewrite app_nil_r; reflexivity.
  1-2: exists [RealPyObjCBridge]; reflexivity.
  exists [RealPyObjCBridge; RealWorkspaceBridge].
  rewrite <- !app_assoc. reflexivity.
Qed.

Lemma create_fallback env force_fake s e :
  use_fake env force_fake = false ->
  real_bridge_failure env = Some e ->
  isinstance_ImportError e = true ->
  exists g,
    create_pyobjc_bridge env force_fake s
    = (Return (length (heap s ++ g), S (length (heap s ++ g)),
               S (S (length (heap s ++ g)))),
       alloc3 FakePyObjCBridge_default FakeWorkspaceBridge_default
         FakeApplicationBridge
         (with_log
            (log (real_started g s)
             ++ [import_warning e;
                 LogInfo "Falling back to fake PyObjC bridge"])
            (real_started g s))).
Proof.
  unfold use_fake, real_bridge_failure. intros Hf Hr Hi.
  assert (Hrun : forall s' : State,
    bind (logger_warning "Failed to import real PyObjC bridge: %s" e)
      (fun _ =>
         bind (logger_info "Falling back to fake PyObjC bridge")
           (fun _ =>
              bind (new FakePyObjCBridge_default) (fun p =>
                bind (new FakeWorkspaceBridge_default) (fun w =>
                  bind (new FakeApplicationBridge)
                    (fun a => ret (p, w, a)))))) s'
    = (Return (length (heap s'), S (length (heap s')),
               S (S (length (heap s')))),
       alloc3 FakePyObjCBridge_default FakeWorkspaceBridge_default
         FakeApplicationBridge
         (with_log
            (log s' ++ [import_warning e;
                        LogInfo "Falling back to fake PyObjC bridge"])
            s'))).
  { intros s'. unfold bind at 1. unfold logger_warning at 1.
    unfold bind at 1. unfold logger_info at 1. rewrite new3_run.
    destruct s' as [h p w a l]. unfold alloc3, with_heap, with_log.
    simpl. rewrite <- app_assoc. reflexivity. }
  assert (Hbody : exists g,
    bind (logger_info "Using real PyObjC bridge")
      (fun _ =>
         bind (py_import (import_real_bridge env)) (fun _ =>
           bind (call_init (init_RealPyObjCBridge env) RealPyObjCBridge)
             (fun p =>
                bind (call_init (init_RealWorkspaceBridge env)
                        RealWorkspaceBridge)
                  (fun w =>
                     bind (call_init (init_RealApplicationBridge env)
                             RealApplicationBridge)
                       (fun a => ret (p, w, a)))))) s
    = (Raise e, real_started g s)).
  { destruct s as [h p w a l].
    destruct env as [tm [e0|] [e1|] [e2|] [e3|]]; simpl in *;
      inversion Hr; subst; clear Hr;
      unfold bind, logger_info, py_import, call_init, new, raise, ret,
        real_started, with_heap, with_log; simpl.
    1-8: exists []; rewrite app_nil_r; reflexivity.
    1-4: exists []; rewrite app_nil_r; reflexivity.
    1-2: exists [RealPyObjCBridge]; reflexivity.
    exists [RealPyObjCBridge; RealWorkspaceBridge].
    rewrite <- !app_assoc. reflexivity. }
  destruct Hbody as [g Hbody]. exists g.
  unfold create_pyobjc_bridge. unfold bind at 1. unfold get at 1.
  rewrite Hf.
  cbv iota. unfold try_except_ImportError. rewrite Hbody, Hi.
  rewrite Hrun. reflexivity.
Qed.

(** *** What a construction leaves behind *)

Lemma fresh_from s (n : nat) :
  (length (heap s) <= n)%nat -> fresh_triple s (n, S n, S (S n)).
Proof.
  intros Hn. unfold fresh_triple.
  repeat split; try (apply lookup_ge_None_2; lia); lia.
Qed.

Lemma all_set_or_some_unset s :
  (exists p w a, slots s = (Some p, Some w, Some a)) \/ some_unset s.
Proof.
  destruct s as [h [p|] [w|] [a|] l]; unfold some_unset, slots; simpl;
    eauto 6.
Qed.

Lemma constructs_after o1 o2 o3 s s1 :
  slots s1 = slots s ->
  (exists g, heap s1 = heap s ++ g) ->
  constructs s
    (length (heap s1), S (length (heap s1)), S (S (length (heap s1))))
    (alloc3 o1 o2 o3 s1).
Proof.
  intros Hs [g Hg]. split; [| split].
  - apply fresh_from. rewrite Hg, length_app. lia.
  - exact Hs.
  - intros l o Hl. apply alloc3_old. rewrite Hg.
    apply lookup_app_l_Some. exact Hl.
Qed.

(** Every way a call of [create_pyobjc_bridge] can end. *)
Lemma create_outcome env force_fake s :
  (use_fake env force_fake = true
   /\ exists p w a,
        slots s = (Some p, Some w, Some a)
        /\ create_pyobjc_bridge env force_fake s = (Return (p, w, a), s))
  \/ (use_fake env force_fake = true /\ some_unset s
      /\ exists t s',
           create_pyobjc_bridge env force_fake s = (Return t, s')
           /\ constructs s t s' /\ fake_triple s' t)
  \/ (use_fake env force_fake = false
      /\ real_bridge_failure env = None
      /\ exists t s',
           create_pyobjc_bridge env force_fake s = (Return t, s')
           /\ constructs s t s' /\ real_triple s' t)
  \/ (use_fake env force_fake = false
      /\ exists e,
           real_bridge_failure env = Some e
           /\ isinstance_ImportError e = true
           /\ exists t s',
                create_pyobjc_bridge env force_fake s = (Return t, s')
                /\ constructs s t s' /\ fake_triple s' t
                /\ In (import_warning e) (log s'))
  \/ (use_fake env force_fake = false
      /\ exists e,
           real_bridge_failure env = Some e
           /\ isinstance_ImportError e = false
           /\ exists s',
                create_pyobjc_bridge env force_fake s = (Raise e, s')
                /\ slots s' = slots s).
Proof.
  destruct (use_fake env force_fake) eqn:Hf.
  - destruct (all_set_or_some_unset s) as [(p & w & a & Hs) | Hs].
    + left. split; [reflexivity |]. exists p, w, a.
      split; [exact Hs |]. apply create_reuse; assumption.
    + right; left. split; [reflexivity |]. split; [exact Hs |].
      eexists _, _. split; [apply create_fake; assumption |].
      split; [| apply (alloc3_lookup _ _ _ (with_log _ s))].
      apply (constructs_after _ _ _ s (with_log _ s));
        [reflexivity | exists []; simpl; symmetry; apply app_nil_r].
  - destruct (real_bridge_failure env) as [e|] eqn:Hr.
    + destruct (isinstance_ImportError e) eqn:Hi.
      * do 3 right; left. split; [reflexivity |]. exists e.
        split; [reflexivity |]. split; [exact Hi |].
        destruct (create_fallback env force_fake s e Hf Hr Hi) as [g Hg].
        eexists _, _. split; [exact Hg |].
        split;
          [| split;
             [apply (alloc3_lookup _ _ _ (with_log _ (real_started g s))) |]].
        -- apply (constructs_after _ _ _ s (with_log _ (real_started g s)));
             [reflexivity | exists g; reflexivity].
        -- simpl. apply in_or_app. right. left. reflexivity.
      * do 4 right. split; [reflexivity |]. exists e.
        split; [reflexivity |]. split; [exact Hi |].
        destruct (create_real_raise env force_fake s e Hf Hr Hi)
          as [g Hg].
        eexists. split; [exact Hg | reflexivity].
    + do 2 right; left. split; [reflexivity |]. split; [reflexivity |].
      eexists _, _. split; [apply create_real_ok; assumption |].
      split; [| apply (alloc3_lookup _ _ _ (with_log _ s))].
      apply (constructs_after _ _ _ s (with_log _ s));
        [reflexivity | exists []; simpl; symmetry; apply app_nil_r].
Qed.

(** *** The accessors *)

Lemma get_bridge_set env acc s p w a :
  slots s = (Some p, Some w, Some a) ->
  get_bridge acc env s = (Return (slot acc s), s).
Proof.
  destruct s as [h p0 w0 a0 l]. unfold slots. simpl.
  intros [= -> -> ->].
  destruct acc; reflexivity.
Qed.

Lemma get_bridge_unset env acc s :
  some_unset s ->
  get_bridge acc env s
  = match create_pyobjc_bridge env false s with
    | (Return (p, w, a), s1) =>
        (Return (slot acc (with_slots (Some p) (Some w) (Some a) s1)),
         with_slots (Some p) (Some w) (Some a) s1)
    | (Raise e, s1) => (Raise e, s1)
    end.
Proof.
  intros Hs.
  assert (Hif : is_none (_pyobjc_bridge s) || is_none (_workspace_bridge s)
                || is_none (_application_bridge s) = true).
  { destruct Hs as [H | [H | H]]; rewrite H; simpl;
      rewrite ?orb_true_r; reflexivity. }
  destruct acc; simpl;
    unfold get_pyobjc_bridge, get_workspace_bridge, get_application_bridge;
    unfold bind at 1; unfold get at 1; unfold bind at 1; rewrite Hif;
    unfold bind at 1;
    destruct (create_pyobjc_bridge env false s) as [[[[p w] a] | e] s1];
    reflexivity.
Qed.

(** *** Construction: fallback, reuse, frame *)

(** C1.  With [force_fake] false and the test mode off, when constructing
    the real bridges fails with an [ImportError], the call returns: its
    result is a triple of newly constructed fake bridges, the warning with
    the cause is in the log, and nothing is raised.  The globals are not
    touched. *)
Theorem create_pyobjc_bridge_falls_back env s e :
  is_test_mode env = false ->
  real_bridge_failure env = Some e ->
  isinstance_ImportError e = true ->
  exists t s',
    create_pyobjc_bridge env false s = (Return t, s')
    /\ fake_triple s' t
    /\ constructs s t s'
    /\ In (import_warning e) (log s').
Proof.
  intros Ht Hr Hi.
  destruct (create_outcome env false s)
    as [[Hf _] | [[Hf _] | [(_ & Hr' & _) | [(_ & e' & Hr' & Hi' & H)
        | (_ & e' & Hr' & Hi' & _)]]]].
  - unfold use_fake in Hf. simpl in Hf. congruence.
  - unfold use_fake in Hf. simpl in Hf. congruence.
  - congruence.
  - assert (e' = e) as -> by congruence.
    destruct H as (t & s' & Hc & Hn & Hk & Hl).
    exists t, s'. auto.
  - assert (e' = e) as -> by congruence. congruence.
Qed.

(** C10.  Outside fake mode, an exception of the real construction that
    is not an [ImportError] reaches the caller, with the globals as they
    were; and a call that returns fake bridges has caught an
    [ImportError]. *)
Theorem create_pyobjc_bridge_catches_only_ImportError env force_fake s :
  use_fake env force_fake = false ->
  (forall e,
     real_bridge_failure env = Some e ->
     isinstance_ImportError e = false ->
     exists s',
       create_pyobjc_bridge env force_fake s = (Raise e, s')
       /\ slots s' = slots s)
  /\ (forall t s',
        create_pyobjc_bridge env force_fake s = (Return t, s') ->
        fake_triple s' t ->
        exists e,
          real_bridge_failure env = Some e
          /\ isinstance_ImportError e = true).
Proof.
  intros Hf.
  destruct (create_outcome env force_fake s)
    as [[Hf' _] | [[Hf' _] | [(_ & Hr' & H) | [(_ & e' & Hr' & Hi' & H)
        | (_ & e' & Hr' & Hi' & H)]]]]; try congruence.
  - split.
    + intros e Hr. congruence.
    + intros t s' Hc Hk. destruct H as (t0 & s0 & Hc0 & _ & Hreal).
      rewrite Hc0 in Hc. inversion Hc; subst.
      destruct t as [[p w] a]. destruct Hk as [Hk _].
      destruct Hreal as [Hreal _]. rewrite Hreal in Hk. discriminate.
  - split.
    + intros e Hr Hi. congruence.
    + intros. exists e'. auto.
  - split.
    + intros e Hr Hi. assert (e' = e) as -> by congruence. exact H.
    + intros t s' Hc _. destruct H as (s0 & Hc0 & _).
      rewrite Hc0 in Hc. discriminate.
Qed.

(** C5.  In fake mode, with the three globals set the call returns
    exactly those instances and changes nothing; with some global unset
    it returns three newly constructed fake bridges; and it constructs
    only then. *)
Theorem create_pyobjc_bridge_fake_mode_reuse env force_fake s :
  use_fake env force_fake = true ->
  (forall p w a,
     slots s = (Some p, Some w, Some a) ->
     create_pyobjc_bridge env force_fake s = (Return (p, w, a), s))
  /\ (some_unset s ->
      exists t s',
        create_pyobjc_bridge env force_fake s = (Return t, s')
        /\ constructs s t s' /\ fake_triple s' t)
  /\ (heap (snd (create_pyobjc_bridge env force_fake s)) <> heap s ->
      some_unset s).
Proof.
  intros Hf. split; [| split].
  - intros p w a Hs. apply create_reuse; assumption.
  - intros Hs.
    eexists _, _. split; [apply create_fake; assumption |].
    split; [| apply (alloc3_lookup _ _ _ (with_log _ s))].
    apply (constructs_after _ _ _ s (with_log _ s));
      [reflexivity | exists []; simpl; symmetry; apply app_nil_r].
  - intros Hh.
    destruct (all_set_or_some_unset s) as [(p & w & a & Hs) | Hs];
      [| exact Hs].
    rewrite (create_reuse env force_fake s p w a Hf Hs) in Hh.
    simpl in Hh. congruence.
Qed.

(** C9.  [create_fake_bridges_with_system] returns three newly
    constructed objects, a [FakePyObjCBridge] over the applications map, a
    [FakeWorkspaceBridge] over the running applications and a
    [FakeApplicationBridge]; it leaves the three globals and the log as
    they were, and what it returns and allocates is the same whatever the
    globals hold. *)
Theorem create_fake_bridges_with_system_frame
    (applications : gmap Z FakeAXUIElement)
    (running_apps : list FakeNSRunningApplication) s :
  exists p w a s',
    create_fake_bridges_with_system applications running_apps s
    = (Return (p, w, a), s')
    /\ constructs s (p, w, a) s'
    /\ heap s' !! p = Some (FakePyObjCBridge applications)
    /\ heap s' !! w = Some (FakeWorkspaceBridge running_apps)
    /\ heap s' !! a = Some FakeApplicationBridge
    /\ log s' = log s
    /\ forall x y z,
         create_fake_bridges_with_system applications running_apps
           (with_slots x y z s)
         = (Return (p, w, a), with_slots x y z s').
Proof.
  unfold create_fake_bridges_with_system.
  eexists _, _, _, _. split; [apply new3_run |].
  split; [| repeat split; try apply alloc3_lookup].
  - apply constructs_after; [reflexivity |].
    exists []. symmetry. apply app_nil_r.
  - intros x y z. rewrite new3_run. reflexivity.
Qed.

Lemma get_bridge_constructs env acc s :
  some_unset s -> constructs_afresh env acc s.
Proof.
  intros Hs. unfold constructs_afresh, selected_mode.
  rewrite (get_bridge_unset env acc s Hs).
  destruct (create_outcome env false s)
    as [(_ & p & w & a & Hset & _)
       | [(Hf & _ & t & s' & Hc & (Hfr & Hsl & _) & Hk)
       | [(Hf & Hr & t & s' & Hc & (Hfr & Hsl & _) & Hk)
       | [(Hf & e & Hr & Hi & t & s' & Hc & (Hfr & Hsl & _) & Hk & _)
       | (Hf & e & Hr & Hi & s' & Hc & Hsl)]]]];
    unfold use_fake in *; simpl in *.
  - exfalso. unfold slots in Hset. inversion Hset as [[Hp Hw Ha]].
    destruct Hs as [H | [H | H]]; congruence.
  - rewrite Hf, Hc. destruct t as [[p w] a].
    exists p, w, a. eexists. split; [destruct acc; reflexivity |].
    split; [reflexivity |]. split; [exact Hfr | exact Hk].
  - rewrite Hf, Hr, Hc. destruct t as [[p w] a].
    exists p, w, a. eexists. split; [destruct acc; reflexivity |].
    split; [reflexivity |]. split; [exact Hfr | exact Hk].
  - rewrite Hf, Hr, Hi, Hc. destruct t as [[p w] a].
    exists p, w, a. eexists. split; [destruct acc; reflexivity |].
    split; [reflexivity |]. split; [exact Hfr | exact Hk].
  - rewrite Hf, Hr, Hi, Hc. exists e, s'. auto.
Qed.

(** *** The triple is whole *)

Lemma partially_initialized_slots s s' :
  slots s' = slots s ->
  partially_initialized s' -> partially_initialized s.
Proof.
  unfold slots, partially_initialized, all_set, all_unset.
  intros [= -> -> ->]. tauto.
Qed.

Lemma all_set_slots s p w a :
  slots s = (Some p, Some w, Some a) -> all_set s.
Proof.
  unfold slots, all_set. intros [= -> -> ->]. eauto.
Qed.

Lemma all_set_whole s : all_set s -> ~ partially_initialized s.
Proof. unfold partially_initialized. tauto. Qed.

(** An accessor call that returns leaves the three globals set, and
    returns what its own global holds. *)
Lemma get_bridge_returns env acc s r s' :
  get_bridge acc env s = (Return r, s') -> all_set s' /\ r = slot acc s'.
Proof.
  intros Hg.
  destruct (all_set_or_some_unset s) as [(p & w & a & Hs) | Hs].
  - rewrite (get_bridge_set env acc s p w a Hs) in Hg.
    inversion Hg; subst. split; [| reflexivity].
    eapply all_set_slots; eassumption.
  - pose proof (get_bridge_constructs env acc s Hs) as Hc.
    unfold constructs_afresh in Hc.
    destruct (selected_mode env) as [m |].
    + destruct Hc as (p & w & a & s1 & Hg1 & Hsl & _).
      rewrite Hg1 in Hg. inversion Hg; subst.
      split; [eapply all_set_slots; eassumption |].
      unfold slots in Hsl. inversion Hsl as [[Hp Hw Ha]].
      destruct acc; simpl; congruence.
    + destruct Hc as (e & s1 & Hg1 & _). rewrite Hg1 in Hg. discriminate.
Qed.

(** No accessor call makes a whole triple partial. *)
Lemma get_bridge_keeps_whole env acc s :
  ~ partially_initialized s ->
  ~ partially_initialized (snd (get_bridge acc env s)).
Proof.
  intros Hw.
  destruct (get_bridge acc env s) as [[r | e] s'] eqn:Hg; simpl.
  - apply all_set_whole. eapply get_bridge_returns. eassumption.
  - intros Hp. apply Hw.
    destruct (all_set_or_some_unset s) as [(p & w & a & Hs) | Hs].
    + rewrite (get_bridge_set env acc s p w a Hs) in Hg. discriminate.
    + pose proof (get_bridge_constructs env acc s Hs) as Hc.
      unfold constructs_afresh in Hc.
      destruct (selected_mode env) as [m |].
      * destruct Hc as (p & w & a & s1 & Hg1 & _).
        rewrite Hg1 in Hg. discriminate.
      * destruct Hc as (e1 & s1 & Hg1 & Hsl & _).
        rewrite Hg1 in Hg. inversion Hg; subst.
        eapply partially_initialized_slots; eassumption.
Qed.

(** The globals after a call that is neither a reset nor an injection nor
    an accessor: as before. *)
Lemma create_keeps_slots env force_fake s :
  slots (snd (create_pyobjc_bridge env force_fake s)) = slots s.
Proof.
  destruct (create_outcome env force_fake s)
    as [(_ & p & w & a & _ & Hc)
       | [(_ & _ & t & s' & Hc & (_ & Hsl & _) & _)
       | [(_ & _ & t & s' & Hc & (_ & Hsl & _) & _)
       | [(_ & e & _ & _ & t & s' & Hc & (_ & Hsl & _) & _)
       | (_ & e & _ & _ & s' & Hc & Hsl)]]]];
    rewrite Hc; simpl; auto.
Qed.

Lemma exec_keeps_whole env c s :
  ~ partially_initialized s ->
  ~ partially_initialized (snd (exec env c s)).
Proof.
  intros Hw. destruct c as [apps running | force_fake | acc | | p w a];
    unfold exec, bind.
  - destruct (create_fake_bridges_with_system_run apps running s)
      as [t Ht]. rewrite Ht. simpl. exact Hw.
  - pose proof (create_keeps_slots env force_fake s) as Hsl.
    destruct (create_pyobjc_bridge env force_fake s) as [[t | e] s'];
      simpl in *; intros Hp; apply Hw;
      eapply partially_initialized_slots; eassumption.
  - pose proof (get_bridge_keeps_whole env acc s Hw) as Hk.
    destruct (get_bridge acc env s) as [[r | e] s']; exact Hk.
  - simpl. unfold partially_initialized, all_unset. simpl. tauto.
  - simpl. apply all_set_whole. unfold all_set. simpl. eauto.
Qed.

(** The triple is never partially initialized. *)
Lemma reachable_whole s : reachable s -> ~ partially_initialized s.
Proof.
  induction 1 as [| env c s Hr IH].
  - unfold partially_initialized, all_unset. simpl. tauto.
  - apply exec_keeps_whole. exact IH.
Qed.

(** C2.  An accessor called while some global is unset constructs three
    new bridges by mode selection and stores all three before it returns
    its own; an accessor call that returns leaves all three set; and no
    accessor call makes a whole triple partial, so that the triple of the
    module is never partially initialized. *)
Theorem accessor_constructs_whole_triple env acc s :
  (some_unset s -> constructs_afresh env acc s)
  /\ (forall r s',
        get_bridge acc env s = (Return r, s') ->
        all_set s' /\ r = slot acc s')
  /\ (~ partially_initialized s ->
      ~ partially_initialized (snd (get_bridge acc env s)))
  /\ (reachable s ->
      ~ partially_initialized (snd (get_bridge acc env s))).
Proof.
  split; [apply get_bridge_constructs |].
  split; [apply get_bridge_returns |].
  split; [apply get_bridge_keeps_whole |].
  intros Hr. apply get_bridge_keeps_whole, reachable_whole, Hr.
Qed.

(** *** Injection, reset and the state machine *)

Lemma exec_injected env c s p w a :
  slots s = (Some p, Some w, Some a) ->
  is_reset_or_set c = false ->
  slots (snd (exec env c s)) = (Some p, Some w, Some a)
  /\ match c with
     | Call_get acc =>
         fst (exec env c s) = Return (VRef (component acc (p, w, a)))
     | _ => True
     end.
Proof.
  intros Hs Hc.
  destruct c as [apps running | force_fake | acc | | p' w' a'];
    try discriminate; unfold exec, bind.
  - destruct (create_fake_bridges_with_system_run apps running s)
      as [t Ht]. rewrite Ht. simpl. auto.
  - pose proof (create_keeps_slots env force_fake s) as Hsl.
    destruct (create_pyobjc_bridge env force_fake s) as [[t | e] s'];
      simpl in *; (split; [congruence | exact I]).
  - rewrite (get_bridge_set env acc s p w a Hs). simpl.
    split; [exact Hs |].
    unfold slots in Hs. inversion Hs as [[Hp Hw Ha]].
    destruct acc; simpl; rewrite ?Hp, ?Hw, ?Ha; reflexivity.
Qed.

Lemma run_injected p w a (t : list (Env * call _ _)) :
  Forall (fun ec => is_reset_or_set (snd ec) = false) t ->
  forall s,
    slots s = (Some p, Some w, Some a) ->
    injected_answers p w a t (fst (run t s))
    /\ slots (snd (run t s)) = (Some p, Some w, Some a).
Proof.
  induction 1 as [| [env c] t Hc Ht IH]; intros s Hs.
  - simpl. split; [constructor | exact Hs].
  - simpl in Hc. cbn [run].
    destruct (exec_injected env c s p w a Hs Hc) as [Hsl Hans].
    destruct (exec env c s) as [r s1]. simpl in Hsl, Hans.
    destruct (IH s1 Hsl) as [IHa IHs].
    destruct (run t s1) as [rs s2]. simpl in *.
    split; [| exact IHs].
    constructor; [| exact IHa].
    simpl. destruct c; auto.
Qed.

(** C3.  After [set_bridge_instances(p, w, a)], through any calls that are
    neither a reset nor another injection, every accessor call returns the
    injected instance it is for, and the globals still hold the three;
    after [reset_bridges()] the three globals are unset, and whichever
    accessor is called next constructs all three anew by mode
    selection. *)
Theorem injection_and_reset p w a s (t : list (Env * call _ _)) :
  Forall (fun ec => is_reset_or_set (snd ec) = false) t ->
  (injected_answers p w a t
     (fst (run t (snd (set_bridge_instances p w a s))))
   /\ slots (snd (run t (snd (set_bridge_instances p w a s))))
      = (Some p, Some w, Some a))
  /\ all_unset (snd (reset_bridges s))
  /\ forall env acc, constructs_afresh env acc (snd (reset_bridges s)).
Proof.
  intros Ht. split; [| split].
  - apply run_injected; [exact Ht | reflexivity].
  - unfold all_unset. simpl. auto.
  - intros env acc. apply get_bridge_constructs.
    left. reflexivity.
Qed.

(** C4.  The globals change only in an accessor call made while some
    global is unset, in a reset and in an injection.  An accessor call
    with all three set changes nothing and returns what is there; from
    the unset triple an accessor call that returns leaves a fake or a
    real triple; a reset leaves the unset triple; an injection leaves
    what it was given. *)
Theorem singleton_state_machine env c s :
  (slots (snd (exec env c s)) <> slots s ->
   (exists acc, c = Call_get acc /\ some_unset s)
   \/ c = Call_reset_bridges
   \/ exists p w a, c = Call_set_bridge_instances p w a)
  /\ (forall acc,
        all_set s -> get_bridge acc env s = (Return (slot acc s), s))
  /\ (forall acc r s',
        in_mode s Unset ->
        get_bridge acc env s = (Return r, s') ->
        in_mode s' Fake \/ in_mode s' Real)
  /\ in_mode (snd (reset_bridges s)) Unset
  /\ (forall p w a,
        slots (snd (set_bridge_instances p w a s))
        = (Some p, Some w, Some a)).
Proof.
  split; [| split; [| split; [| split]]].
  - intros Hne.
    destruct c as [apps running | force_fake | acc | | p w a];
      [exfalso | exfalso | | auto | eauto 6].
    + apply Hne. unfold exec, bind.
      destruct (create_fake_bridges_with_system_run apps running s)
        as [t Ht]. rewrite Ht. reflexivity.
    + apply Hne. unfold exec, bind.
      pose proof (create_keeps_slots env force_fake s) as Hsl.
      destruct (create_pyobjc_bridge env force_fake s) as [[t | e] s'];
        exact Hsl.
    + left. exists acc. split; [reflexivity |].
      destruct (all_set_or_some_unset s) as [(p & w & a & Hs) | Hs];
        [| exact Hs].
      exfalso. apply Hne. unfold exec, bind.
      rewrite (get_bridge_set env acc s p w a Hs). reflexivity.
  - intros acc ([p Hp] & [w Hw] & [a Ha]).
    apply (get_bridge_set env acc s p w a).
    unfold slots. congruence.
  - intros acc r s' (Hp & _ & _) Hg.
    pose proof (get_bridge_constructs env acc s (or_introl Hp)) as Hc.
    unfold constructs_afresh in Hc.
    destruct (selected_mode env) as [m |].
    + destruct Hc as (p & w & a & s1 & Hg1 & Hsl & _ & Hm).
      rewrite Hg1 in Hg. inversion Hg; subst.
      destruct m; [contradiction | left | right];
        exists p, w, a; auto.
    + destruct Hc as (e & s1 & Hg1 & _). rewrite Hg1 in Hg. discriminate.
  - simpl. unfold all_unset. simpl. auto.
  - reflexivity.
Qed.
End FactoryFacts.

(** *** The factory on the sample environments *)

Example accessor_without_native_binding :
  get_pyobjc_bridge env_missing_binding state_loaded
  = (Return (Some 0%nat),
     {| heap :=
          [FakePyObjCBridge ∅; FakeWorkspaceBridge []; FakeApplicationBridge];
        _pyobjc_bridge := Some 0%nat;
        _workspace_bridge := Some 1%nat;
        _application_bridge := Some 2%nat;
        log :=
          [LogInfo "Using real PyObjC bridge";
           LogWarning "Failed to import real PyObjC bridge: %s"
             (Exc ImportError "No module named 'ApplicationServices'");
           LogInfo "Falling back to fake PyObjC bridge"] |}).
Proof. reflexivity. Qed.

Example accessor_with_broken_binding :
  get_workspace_bridge env_broken_binding state_loaded
  = (Raise (Exc (OtherException "RuntimeError") "accessibility denied"),
     {| heap := [RealPyObjCBridge];
        _pyobjc_bridge := None;
        _workspace_bridge := None;
        _application_bridge := None;
        log := [LogInfo "Using real PyObjC bridge"] |}).
Proof. reflexivity. Qed.

Example injected_fixture :
  heap state_injected
  = [FakePyObjCBridge {[ 100 := "AXButton" ]}; FakeWorkspaceBridge [100];
     FakeApplicationBridge]
  /\ slots state_injected = (Some 0%nat, Some 1%nat, Some 2%nat)
  /\ fst (run sample_trace state_injected)
     = [Return (VRef 0%nat); Return (VTuple 0%nat 1%nat 2%nat);
        Return (VTuple 3%nat 4%nat 5%nat); Return (VRef 2%nat);
        Return (VRef 1%nat)].
Proof. repeat split. Qed.

(** ** The data model *)

Section DictFacts.
Implicit Types (k : string) (d : kwargs) (v : pyval).

Lemma on_field_get {B} k (f : pyval -> B) (absent : B) d :
  on_field k f absent d
  = match dict_get k d with
    | Some v => f v
    | None => absent
    end.
Proof.
  induction d as [| [k' v] d IH]; simpl; [reflexivity |].
  destruct (String.eqb k' k); [reflexivity | exact IH].
Qed.

Lemma required_get {A} k (c : pyval -> option A) d :
  required k c d
  = match dict_get k d with
    | Some v =>
        match c v with
        | Some a => Ok a
        | None => ValidationError k
        end
    | None => ValidationError k
    end.
Proof. unfold required. apply on_field_get. Qed.

Lemma optional_get {A} k (c : pyval -> option A) d :
  optional k c d
  = match dict_get k d with
    | None | Some PNone => Ok None
    | Some v =>
        match c v with
        | Some a => Ok (Some a)
        | None => ValidationError k
        end
    end.
Proof.
  unfold optional. rewrite on_field_get.
  destruct (dict_get k d) as [[]|]; reflexivity.
Qed.

Lemma dict_get_app k d1 d2 :
  dict_get k (d1 ++ d2)
  = match dict_get k d1 with
    | Some v => Some v
    | None => dict_get k d2
    end.
Proof.
  induction d1 as [| [k' v] d1 IH]; simpl; [reflexivity |].
  destruct (String.eqb k' k); [reflexivity | exact IH].
Qed.

Lemma dict_get_dump_optional k (exclude_none : bool) k' (o : option pyval) :
  dict_get k (dump_optional exclude_none k' o)
  = if String.eqb k' k
    then match o with
         | Some v => Some v
         | None => if exclude_none then None else Some PNone
         end
    else None.
Proof.
  destruct o as [v |]; [| destruct exclude_none]; simpl;
    destruct (String.eqb k' k); reflexivity.
Qed.

Lemma traverse_map {A B} (f : A -> option B) (g : B -> A) (l : list B) :
  Forall (fun b => f (g b) = Some b) l -> traverse f (map g l) = Some l.
Proof.
  induction 1 as [| b l Hb Hl IH]; simpl; [reflexivity |].
  rewrite Hb, IH. reflexivity.
Qed.

(** What a required field reads back from a dump. *)
Lemma required_roundtrip {A} k (c : pyval -> option A) d v (a : A) :
  dict_get k d = Some v -> c v = Some a -> required k c d = Ok a.
Proof. intros Hd Hc. rewrite required_get, Hd, Hc. reflexivity. Qed.

(** What an optional field reads back from a dump, under either policy
    for [None]. *)
Lemma optional_roundtrip {A} k (c : pyval -> option A) (dump : A -> pyval)
    (exclude_none : bool) (o : option A) d :
  dict_get k d
  = match option_map dump o with
    | Some v => Some v
    | None => if exclude_none then None else Some PNone
    end ->
  (forall a, o = Some a -> c (dump a) = Some a /\ dump a <> PNone) ->
  optional k c d = Ok o.
Proof.
  intros Hd Hc. rewrite optional_get, Hd.
  destruct o as [a |]; simpl.
  - destruct (Hc a eq_refl) as [Ha Hn]. rewrite Ha.
    destruct (dump a); try reflexivity. contradiction.
  - destruct exclude_none; reflexivity.
Qed.
End DictFacts.

(** *** The model against [tests/models/test_types.py] *)

Example test_position_serialization :
  Position_model_dump (Position.make 50 75) = [("x", PInt 50); ("y", PInt 75)].
Proof. reflexivity. Qed.

Example test_negative_coordinates :
  Position_validate [("x", PInt (-10)); ("y", PInt (-20))]
  = Ok (Position.make (-10) (-20)).
Proof. reflexivity. Qed.

Example test_zero_dimensions :
  Size_validate [("width", PInt 0); ("height", PInt 0)] = Ok (Size.make 0 0).
Proof. reflexivity. Qed.

Example negative_dimension :
  Size_validate [("width", PInt 800); ("height", PInt (-1))]
  = ValidationError "height".
Proof. reflexivity. Qed.

Example test_minimal_element :
  UIElement.title
  <$> to_option
        (UIElement_validate
           [("role", PStr "AXButton"); ("element_type", PStr "button")])
  = Some None.
Proof. reflexivity. Qed.

Example test_element_from_instances :
  UIElement_validate
    [("role", PStr "AXTextField"); ("element_type", PStr "textfield");
     ("title", PStr "Username");
     ("position", PInstance (IPosition (Position.make 50 100)));
     ("size", PInstance (ISize (Size.make 200 25)))]
  = Ok text_field.
Proof. reflexivity. Qed.

Example test_element_serialization :
  dict_get "position" (UIElement_model_dump false text_field)
  = Some (PDict [("x", PInt 50); ("y", PInt 100)])
  /\ dict_get "size" (UIElement_model_dump false text_field)
     = Some (PDict [("width", PInt 200); ("height", PInt 25)])
  /\ dict_get "enabled" (UIElement_model_dump false text_field) = Some PNone
  /\ dict_get "enabled" (UIElement_model_dump true text_field) = None.
Proof. repeat split. Qed.

Example test_window_with_elements :
  WindowState.children
  <$> to_option
        (WindowState_validate
           [("title", PStr "Login Form"); ("window_id", PInt 1001);
            ("children", PList [PInstance (IUIElement text_field)])])
  = Some (Some [text_field]).
Proof. reflexivity. Qed.

Example test_nested_submenu :
  MenuBarItem_validate
    [("title", PStr "Top Item"); ("enabled", PBool true);
     ("submenu",
      PList
        [PDict
           [("title", PStr "Mid Item"); ("enabled", PBool true);
            ("submenu",
             PList
               [PInstance
                  (IMenuBarItem
                     (MenuBarItem.make "Deep Item" true None))])]])]
  = Ok (MenuBarItem.make "Top Item" true
          (Some
             [MenuBarItem.make "Mid Item" true
                (Some [MenuBarItem.make "Deep Item" true None])])).
Proof. reflexivity. Qed.

(** *** Induction over trees *)

Lemma UIElement_ind' (P : UIElement.t -> Prop) :
  (forall role element_type title ax_identifier enabled focused position
          size value actions children_count children,
     match children with
     | Some l => Forall P l
     | None => True
     end ->
     P (UIElement.make role element_type title ax_identifier enabled focused
          position size value actions children_count children)) ->
  forall e, P e.
Proof.
  intros H.
  fix IH 1.
  intros [role element_type title ax_identifier enabled focused position
          size value actions children_count children].
  apply H. destruct children as [l |]; [| exact I].
  induction l as [| c l IHl]; constructor; [apply IH | exact IHl].
Qed.

Lemma MenuBarItem_ind' (P : MenuBarItem.t -> Prop) :
  (forall title enabled submenu,
     match submenu with
     | Some l => Forall P l
     | None => True
     end ->
     P (MenuBarItem.make title enabled submenu)) ->
  forall m, P m.
Proof.
  intros H.
  fix IH 1.
  intros [title enabled submenu].
  apply H. destruct submenu as [l |]; [| exact I].
  induction l as [| c l IHl]; constructor; [apply IH | exact IHl].
Qed.

(** *** Reading a dump back *)

(** The value of the field of the optional [o] in the dump [d]. *)
Ltac dump_get d o en :=
  subst d;
  cbn [UIElement_model_dump WindowState_model_dump MenuBarItem_model_dump
       app dict_get String.eqb Ascii.eqb Bool.eqb];
  rewrite ?dict_get_app, ?dict_get_dump_optional;
  cbn [String.eqb Ascii.eqb Bool.eqb];
  destruct o, en; reflexivity.

(** The next optional field of the validator reads [o] back; what is left
    is that a value that is set coerces to itself. *)
Ltac read_optional d o en dump :=
  match goal with
  | |- context [optional ?k ?c d] =>
      rewrite (optional_roundtrip k c dump en o d);
      [cbn [vbind] | dump_get d o en |]
  end.

Lemma coerce_Position_dump p :
  coerce_Position (PDict (Position_model_dump p)) = Some p.
Proof. destruct p. reflexivity. Qed.

Lemma Size_roundtrip s : Size_validate (Size_model_dump s) = Ok s.
Proof.
  destruct s as [w h]. unfold Size_model_dump, Size_validate.
  cbn [Size.width Size.height]. rewrite !required_get. simpl.
  unfold coerce_dimension. simpl.
  destruct (Z.leb_spec 0 (Z.of_N w)); [| lia].
  destruct (Z.leb_spec 0 (Z.of_N h)); [| lia].
  simpl. rewrite !N2Z.id. reflexivity.
Qed.

Lemma coerce_Size_dump s :
  coerce_Size (PDict (Size_model_dump s)) = Some s.
Proof. cbn [coerce_Size]. rewrite Size_roundtrip. reflexivity. Qed.

Lemma coerce_scalar_dump v : coerce_scalar (scalar_dump v) = Some v.
Proof. destruct v; reflexivity. Qed.

Lemma coerce_list_str_dump (l : list string) :
  coerce_list coerce_str (PList (map PStr l)) = Some l.
Proof.
  simpl. apply traverse_map. apply Forall_forall. reflexivity.
Qed.

Lemma UIElement_roundtrip exclude_none e :
  UIElement_validate (UIElement_model_dump exclude_none e) = Ok e.
Proof.
  induction e as [role element_type title ax_identifier enabled focused
    position size value actions children_count children IH]
    using UIElement_ind'.
  unfold UIElement_validate, UIElement_fields.
  set (d := UIElement_model_dump exclude_none _).
  rewrite (required_roundtrip "role" coerce_str d (PStr role) role)
    by reflexivity.
  rewrite (required_roundtrip "element_type" coerce_str d
             (PStr element_type) element_type) by reflexivity.
  cbn [vbind].
  read_optional d title exclude_none PStr.
  read_optional d ax_identifier exclude_none PStr.
  read_optional d enabled exclude_none PBool.
  read_optional d focused exclude_none PBool.
  read_optional d position exclude_none
    (fun p => PDict (Position_model_dump p)).
  read_optional d size exclude_none (fun s => PDict (Size_model_dump s)).
  read_optional d value exclude_none scalar_dump.
  read_optional d actions exclude_none (fun l => PList (map PStr l)).
  read_optional d children_count exclude_none PInt.
  read_optional d children exclude_none
    (fun l =>
       PList (map (fun c => PDict (UIElement_model_dump exclude_none c)) l)).
  - reflexivity.
  - intros l ->. split; [| discriminate].
    cbn [coerce_list]. apply traverse_map.
    eapply Forall_impl; [exact IH |].
    intros c Hc. cbn [coerce_UIElement].
    change (UIElement_fields coerce_UIElement) with UIElement_validate.
    rewrite Hc. reflexivity.
  - intros z _. split; [reflexivity | discriminate].
  - intros l _. split; [apply coerce_list_str_dump | discriminate].
  - intros v _. split; [apply coerce_scalar_dump |].
    destruct v; discriminate.
  - intros s _. split; [apply coerce_Size_dump | discriminate].
  - intros p _. split; [apply coerce_Position_dump | discriminate].
  - intros b _. split; [reflexivity | discriminate].
  - intros b _. split; [reflexivity | discriminate].
  - intros t _. split; [reflexivity | discriminate].
  - intros t _. split; [reflexivity | discriminate].
Qed.

Lemma coerce_UIElement_dump exclude_none e :
  coerce_UIElement (PDict (UIElement_model_dump exclude_none e)) = Some e.
Proof.
  cbn [coerce_UIElement].
  change (UIElement_fields coerce_UIElement) with UIElement_validate.
  rewrite UIElement_roundtrip. reflexivity.
Qed.

Lemma WindowState_roundtrip exclude_none w :
  WindowState_validate (WindowState_model_dump exclude_none w) = Ok w.
Proof.
  destruct w as [title window_id position size minimized children].
  unfold WindowState_validate.
  set (d := WindowState_model_dump exclude_none _).
  rewrite (required_roundtrip "title" coerce_str d (PStr title) title)
    by reflexivity.
  rewrite (required_roundtrip "window_id" coerce_int d (PInt window_id)
             window_id) by reflexivity.
  cbn [vbind].
  read_optional d position exclude_none
    (fun p => PDict (Position_model_dump p)).
  read_optional d size exclude_none (fun s => PDict (Size_model_dump s)).
  read_optional d minimized exclude_none PBool.
  read_optional d children exclude_none
    (fun l =>
       PList (map (fun c => PDict (UIElement_model_dump exclude_none c)) l)).
  - reflexivity.
  - intros l _. split; [| discriminate].
    cbn [coerce_list]. apply traverse_map. apply Forall_forall.
    intros c _. apply coerce_UIElement_dump.
  - intros b _. split; [reflexivity | discriminate].
  - intros s _. split; [apply coerce_Size_dump | discriminate].
  - intros p _. split; [apply coerce_Position_dump | discriminate].
Qed.

Lemma MenuBarItem_roundtrip exclude_none m :
  MenuBarItem_validate (MenuBarItem_model_dump exclude_none m) = Ok m.
Proof.
  induction m as [title enabled submenu IH] using MenuBarItem_ind'.
  unfold MenuBarItem_validate, MenuBarItem_fields.
  set (d := MenuBarItem_model_dump exclude_none _).
  rewrite (required_roundtrip "title" coerce_str d (PStr title) title)
    by reflexivity.
  rewrite (required_roundtrip "enabled" coerce_bool d (PBool enabled)
             enabled) by reflexivity.
  cbn [vbind].
  read_optional d submenu exclude_none
    (fun l =>
       PList (map (fun c => PDict (MenuBarItem_model_dump exclude_none c)) l)).
  - reflexivity.
  - intros l ->. split; [| discriminate].
    cbn [coerce_list]. apply traverse_map.
    eapply Forall_impl; [exact IH |].
    intros c Hc. cbn [coerce_MenuBarItem].
    change (MenuBarItem_fields coerce_MenuBarItem) with MenuBarItem_validate.
    rewrite Hc. reflexivity.
Qed.

(** C6.  For each of the five models and every instance of it, constructing
    the model from the instance's serialized plain data gives an instance
    equal to it, whether an unset optional field is written as an explicit
    [None] or left out. *)
Theorem model_roundtrip (exclude_none : bool) (i : instance) :
  construct (model_of i) (model_dump exclude_none i) = Ok i.
Proof.
  destruct i as [p | s | e | w | m]; cbn [model_of model_dump construct].
  - destruct p. reflexivity.
  - rewrite Size_roundtrip. reflexivity.
  - rewrite UIElement_roundtrip. reflexivity.
  - rewrite WindowState_roundtrip. reflexivity.
  - rewrite MenuBarItem_roundtrip. reflexivity.
Qed.

(** *** Truncation *)

Lemma float_den_pos f : 0 < float_den f.
Proof.
  unfold float_den. destruct (Z.leb_spec 0 (exponent f)); [lia |].
  apply Z.pow_pos_nonneg; lia.
Qed.

Lemma integer_part_unique (n d z t : Z) :
  0 < d ->
  Z.abs z * d <= Z.abs n < (Z.abs z + 1) * d -> 0 <= z * n ->
  Z.abs t * d <= Z.abs n < (Z.abs t + 1) * d -> 0 <= t * n ->
  z = t.
Proof.
  intros Hd Hz Hzs Ht Hts.
  assert (Z.abs z = Z.abs t) by nia.
  nia.
Qed.

Lemma quot_integer_part_nonneg (n d : Z) :
  0 <= n -> 0 < d ->
  Z.quot n d * d <= n < (Z.quot n d + 1) * d /\ 0 <= Z.quot n d.
Proof.
  intros Hn Hd. rewrite Z.quot_div_nonneg by lia.
  pose proof (Z.div_mod n d ltac:(lia)) as Hqr.
  pose proof (Z.mod_pos_bound n d Hd) as Hb.
  pose proof (Z.div_pos n d Hn Hd) as Hq.
  nia.
Qed.

Lemma quot_integer_part (n d : Z) :
  0 < d ->
  Z.abs (Z.quot n d) * d <= Z.abs n < (Z.abs (Z.quot n d) + 1) * d
  /\ 0 <= Z.quot n d * n.
Proof.
  intros Hd. destruct (Z.le_gt_cases 0 n) as [Hn | Hn].
  - destruct (quot_integer_part_nonneg n d Hn Hd) as [Hb Hq].
    rewrite (Z.abs_eq n) by lia. rewrite (Z.abs_eq (Z.quot n d)) by lia.
    split; [exact Hb | nia].
  - destruct (quot_integer_part_nonneg (- n) d ltac:(lia) Hd) as [Hb Hq].
    rewrite Z.quot_opp_l in Hb, Hq by lia.
    rewrite (Z.abs_neq n) by lia. rewrite (Z.abs_neq (Z.quot n d)) by lia.
    split; [exact Hb | nia].
Qed.

(** [float_trunc] is the integer part, and nothing else is. *)
Lemma float_trunc_integer_part f z :
  is_integer_part f z <-> z = float_trunc f.
Proof.
  unfold is_integer_part, float_trunc.
  pose proof (float_den_pos f) as Hd.
  destruct (quot_integer_part (float_num f) (float_den f) Hd) as [Hb Hs].
  split.
  - intros (H1 & H2 & H3).
    apply (integer_part_unique (float_num f) (float_den f)); auto.
  - intros ->. tauto.
Qed.

Lemma coerce_coordinate_input v z :
  coordinate_input v z -> coerce_coordinate v = Some z.
Proof.
  destruct v; simpl; try contradiction.
  - intros ->. reflexivity.
  - intros H. apply float_trunc_integer_part in H. congruence.
Qed.

(** C7.  A [Position] takes integer coordinates of any sign as they are, and
    of a float coordinate it keeps the integer part, towards zero;
    [Position(x=10.7, y=20.3)] has [x == 10] and [y == 20], where rounding
    would have given 11. *)
Theorem Position_coordinate_coercion :
  (forall x y : Z,
     Position_validate [("x", PInt x); ("y", PInt y)]
     = Ok (Position.make x y))
  /\ (forall d vx vy x y,
        dict_get "x" d = Some vx ->
        dict_get "y" d = Some vy ->
        coordinate_input vx x ->
        coordinate_input vy y ->
        Position_validate d = Ok (Position.make x y))
  /\ Position_validate [("x", PFloat float_10_7); ("y", PFloat float_20_3)]
     = Ok (Position.make 10 20)
  /\ float_round float_10_7 = 11.
Proof.
  split; [reflexivity |]. split; [| split; reflexivity].
  intros d vx vy x y Hx Hy Hvx Hvy. unfold Position_validate.
  rewrite (required_roundtrip "x" coerce_coordinate d vx x Hx)
    by (apply coerce_coordinate_input; exact Hvx).
  rewrite (required_roundtrip "y" coerce_coordinate d vy y Hy)
    by (apply coerce_coordinate_input; exact Hvy).
  reflexivity.
Qed.

(** *** Validation failures *)

Section Agreement.
Lemma coerce_str_agrees : agrees coerce_str TStr.
Proof. intros []; reflexivity. Qed.

Lemma coerce_bool_agrees : agrees coerce_bool TBool.
Proof. intros []; reflexivity. Qed.

Lemma coerce_int_agrees : agrees coerce_int TInt.
Proof.
  intros []; try reflexivity. simpl.
  destruct (float_is_integer f); reflexivity.
Qed.

Lemma coerce_coordinate_agrees : agrees coerce_coordinate TCoordinate.
Proof. intros []; reflexivity. Qed.

Lemma coerce_dimension_agrees : agrees coerce_dimension TDimension.
Proof.
  intros []; try reflexivity; unfold coerce_dimension; simpl.
  - destruct (0 <=? z); reflexivity.
  - destruct (float_is_integer f); [| reflexivity].
    destruct (0 <=? float_trunc f); reflexivity.
Qed.

Lemma coerce_scalar_agrees : agrees coerce_scalar TScalar.
Proof. intros []; reflexivity. Qed.

Lemma coerce_list_agrees {A} (c : pyval -> option A) t :
  agrees c t -> agrees (coerce_list c) (TList t).
Proof.
  intros Hc []; try reflexivity. simpl.
  induction l as [| v l IH]; [reflexivity |].
  simpl. specialize (Hc v).
  destruct (c v), (coercible t v); try discriminate.
  - destruct (traverse c l), (forallb (coercible t) l);
      try discriminate; reflexivity.
  - destruct (traverse c l); reflexivity.
Qed.

Lemma coerce_Position_agrees : agrees coerce_Position (TModel MPosition).
Proof.
  intros []; try reflexivity.
  - simpl. destruct (Position_validate d); reflexivity.
  - destruct i; reflexivity.
Qed.

Lemma coerce_Size_agrees : agrees coerce_Size (TModel MSize).
Proof.
  intros []; try reflexivity.
  - simpl. destruct (Size_validate d); reflexivity.
  - destruct i; reflexivity.
Qed.

Lemma coerce_UIElement_agrees :
  agrees coerce_UIElement (TModel MUIElement).
Proof.
  intros []; try reflexivity.
  - cbn [coerce_UIElement coercible construct].
    change (UIElement_fields coerce_UIElement) with UIElement_validate.
    destruct (UIElement_validate d); reflexivity.
  - destruct i; reflexivity.
Qed.

Lemma coerce_MenuBarItem_agrees :
  agrees coerce_MenuBarItem (TModel MMenuBarItem).
Proof.
  intros []; try reflexivity.
  - cbn [coerce_MenuBarItem coercible construct].
    change (MenuBarItem_fields coerce_MenuBarItem)
      with MenuBarItem_validate.
    destruct (MenuBarItem_validate d); reflexivity.
  - destruct i; reflexivity.
Qed.

(** A required field either reads a value, and is in order, or fails
    under its own name, and offends. *)
Lemma required_step {A} k (c : pyval -> option A) t d :
  agrees c t ->
  (exists a, required k c d = Ok a /\ field_ok k true t d)
  \/ (required k c d = ValidationError k /\ field_bad k true t d).
Proof.
  intros Hc. rewrite required_get. unfold field_ok, field_bad, accepts.
  destruct (dict_get k d) as [v |]; [| right; auto].
  specialize (Hc v).
  destruct (c v) as [a |], (coercible t v); try discriminate.
  - left. exists a. destruct v; auto.
  - right. destruct v; auto.
Qed.

Lemma optional_step {A} k (c : pyval -> option A) t d :
  agrees c t ->
  (exists o, optional k c d = Ok o /\ field_ok k false t d)
  \/ (optional k c d = ValidationError k /\ field_bad k false t d).
Proof.
  intros Hc. rewrite optional_get. unfold field_ok, field_bad, accepts.
  destruct (dict_get k d) as [v |]; [| left; eauto].
  specialize (Hc v).
  destruct (c v) as [a |], (coercible t v); try discriminate;
    destruct v; eauto.
Qed.

Lemma field_ok_not_bad k r t d : field_ok k r t d -> ~ field_bad k r t d.
Proof.
  unfold field_ok, field_bad. destruct (dict_get k d); congruence.
Qed.
End Agreement.

(** One field of a validator: it either fails under its own name, which
    closes the case, or it is in order and the validator goes on. *)
Ltac field_step L :=
  let Hbad := fresh "Hbad" in
  destruct L as [(? & -> & ?) | (-> & Hbad)];
  [cbn [vbind]
  | eexists; split; [reflexivity |];
    eexists _, _; split; [| exact Hbad];
    cbn [fields In]; auto 20].

(** Every field was in order, so that none offends. *)
Ltac no_offender Hoff :=
  exfalso;
  destruct Hoff as (? & ? & HIn & Hb);
  cbn [fields In] in HIn;
  repeat (destruct HIn as [HIn | HIn];
          [inversion HIn; subst;
           refine (field_ok_not_bad _ _ _ _ _ Hb); assumption |]);
  exact HIn.

Lemma Position_validate_fails d k :
  offending MPosition d k ->
  exists k',
    construct MPosition d = ValidationError k' /\ offending MPosition d k'.
Proof.
  intros Hoff. unfold construct, Position_validate.
  field_step (required_step "x" coerce_coordinate TCoordinate d
                coerce_coordinate_agrees).
  field_step (required_step "y" coerce_coordinate TCoordinate d
                coerce_coordinate_agrees).
  no_offender Hoff.
Qed.

Lemma Size_validate_fails d k :
  offending MSize d k ->
  exists k', construct MSize d = ValidationError k' /\ offending MSize d k'.
Proof.
  intros Hoff. unfold construct, Size_validate.
  field_step (required_step "width" coerce_dimension TDimension d
                coerce_dimension_agrees).
  field_step (required_step "height" coerce_dimension TDimension d
                coerce_dimension_agrees).
  no_offender Hoff.
Qed.

Lemma UIElement_validate_fails d k :
  offending MUIElement d k ->
  exists k',
    construct MUIElement d = ValidationError k' /\ offending MUIElement d k'.
Proof.
  intros Hoff. unfold construct, UIElement_validate, UIElement_fields.
  field_step (required_step "role" coerce_str TStr d coerce_str_agrees).
  field_step (required_step "element_type" coerce_str TStr d
                coerce_str_agrees).
  field_step (optional_step "title" coerce_str TStr d coerce_str_agrees).
  field_step (optional_step "ax_identifier" coerce_str TStr d
                coerce_str_agrees).
  field_step (optional_step "enabled" coerce_bool TBool d
                coerce_bool_agrees).
  field_step (optional_step "focused" coerce_bool TBool d
                coerce_bool_agrees).
  field_step (optional_step "position" coerce_Position (TModel MPosition) d
                coerce_Position_agrees).
  field_step (optional_step "size" coerce_Size (TModel MSize) d
                coerce_Size_agrees).
  field_step (optional_step "value" coerce_scalar TScalar d
                coerce_scalar_agrees).
  field_step (optional_step "actions" (coerce_list coerce_str) (TList TStr)
                d (coerce_list_agrees _ _ coerce_str_agrees)).
  field_step (optional_step "children_count" coerce_int TInt d
                coerce_int_agrees).
  field_step (optional_step "children" (coerce_list coerce_UIElement)
                (TList (TModel MUIElement)) d
                (coerce_list_agrees _ _ coerce_UIElement_agrees)).
  no_offender Hoff.
Qed.

Lemma WindowState_validate_fails d k :
  offending MWindowState d k ->
  exists k',
    construct MWindowState d = ValidationError k'
    /\ offending MWindowState d k'.
Proof.
  intros Hoff. unfold construct, WindowState_validate.
  field_step (required_step "title" coerce_str TStr d coerce_str_agrees).
  field_step (required_step "window_id" coerce_int TInt d
                coerce_int_agrees).
  field_step (optional_step "position" coerce_Position (TModel MPosition) d
                coerce_Position_agrees).
  field_step (optional_step "size" coerce_Size (TModel MSize) d
                coerce_Size_agrees).
  field_step (optional_step "minimized" coerce_bool TBool d
                coerce_bool_agrees).
  field_step (optional_step "children" (coerce_list coerce_UIElement)
                (TList (TModel MUIElement)) d
                (coerce_list_agrees _ _ coerce_UIElement_agrees)).
  no_offender Hoff.
Qed.

Lemma MenuBarItem_validate_fails d k :
  offending MMenuBarItem d k ->
  exists k',
    construct MMenuBarItem d = ValidationError k'
    /\ offending MMenuBarItem d k'.
Proof.
  intros Hoff. unfold construct, MenuBarItem_validate, MenuBarItem_fields.
  field_step (required_step "title" coerce_str TStr d coerce_str_agrees).
  field_step (required_step "enabled" coerce_bool TBool d
                coerce_bool_agrees).
  field_step (optional_step "submenu" (coerce_list coerce_MenuBarItem)
                (TList (TModel MMenuBarItem)) d
                (coerce_list_agrees _ _ coerce_MenuBarItem_agrees)).
  no_offender Hoff.
Qed.

(** C8.  Constructing a model with a required field missing, or with a
    field holding a value its declared type does not take, fails with a
    [ValidationError] that names an offending field.  [UIElement()] fails,
    [role] and [element_type] being required, and so does a [UIElement]
    whose [enabled] is the string ["not_a_boolean"]: the string is not
    taken for a truthy boolean. *)
Theorem validation_failure_contract :
  (forall m d k,
     offending m d k ->
     exists k', construct m d = ValidationError k' /\ offending m d k')
  /\ construct MUIElement [] = ValidationError "role"
  /\ offending MUIElement [] "element_type"
  /\ construct MUIElement
       [("role", PStr "AXButton"); ("element_type", PStr "button");
        ("enabled", PStr "not_a_boolean")]
     = ValidationError "enabled".
Proof.
  split; [| split; [reflexivity | split; [| reflexivity]]].
  - intros [] d k.
    + apply Position_validate_fails.
    + apply Size_validate_fails.
    + apply UIElement_validate_fails.
    + apply WindowState_validate_fails.
    + apply MenuBarItem_validate_fails.
  - exists true, TStr. split; [| reflexivity]. simpl. auto.
Qed.

(** ** The theorems at concrete inputs *)

Lemma create_pyobjc_bridge_falls_back_witness :
  exists t s',
    create_pyobjc_bridge env_missing_binding false state_loaded
    = (Return t, s')
    /\ fake_triple s' t
    /\ constructs state_loaded t s'
    /\ In (import_warning
             (Exc ImportError "No module named 'ApplicationServices'"))
          (log s').
Proof.
  apply (create_pyobjc_bridge_falls_back env_missing_binding state_loaded
           (Exc ImportError "No module named 'ApplicationServices'"));
    reflexivity.
Defined.

Lemma create_pyobjc_bridge_catches_only_ImportError_witness :
  exists s',
    create_pyobjc_bridge env_broken_binding false state_loaded
    = (Raise (Exc (OtherException "RuntimeError") "accessibility denied"),
       s')
    /\ slots s' = slots state_loaded.
Proof.
  apply (proj1
           (create_pyobjc_bridge_catches_only_ImportError env_broken_binding
              false state_loaded eq_refl));
    reflexivity.
Defined.

Lemma create_pyobjc_bridge_fake_mode_reuse_witness :
  create_pyobjc_bridge env_test_mode false state_injected
  = (Return (0%nat, 1%nat, 2%nat), state_injected).
Proof.
  apply (proj1
           (create_pyobjc_bridge_fake_mode_reuse env_test_mode false
              state_injected eq_refl)).
  reflexivity.
Defined.

Lemma accessor_constructs_whole_triple_witness :
  constructs_afresh env_missing_binding Workspace state_loaded.
Proof.
  apply (proj1
           (accessor_constructs_whole_triple env_missing_binding Workspace
              state_loaded)).
  left. reflexivity.
Defined.

Lemma injection_and_reset_witness :
  injected_answers 7%nat 8%nat 9%nat sample_trace
    (fst (run sample_trace
            (snd (set_bridge_instances 7%nat 8%nat 9%nat state_loaded))))
  /\ slots
       (snd (run sample_trace
               (snd (set_bridge_instances 7%nat 8%nat 9%nat state_loaded))))
     = (Some 7%nat, Some 8%nat, Some 9%nat).
Proof.
  apply (proj1
           (injection_and_reset 7%nat 8%nat 9%nat state_loaded sample_trace
              ltac:(repeat constructor))).
Defined.

Lemma singleton_state_machine_witness :
  get_bridge Application env_broken_binding state_injected
  = (Return (Some 2%nat), state_injected).
Proof.
  apply (proj1 (proj2
           (singleton_state_machine env_broken_binding Call_reset_bridges
              state_injected))).
  unfold all_set. simpl. eauto.
Defined.

Lemma Position_coordinate_coercion_witness :
  Position_validate
    [("y", PInt (-20));
     ("x", PFloat {| mantissa := -6023564501608038; exponent := -49 |})]
  = Ok (Position.make (-10) (-20)).
Proof.
  apply (proj1 (proj2 Position_coordinate_coercion)
           _ (PFloat {| mantissa := -6023564501608038; exponent := -49 |})
           (PInt (-20)));
    try reflexivity.
  vm_compute. repeat split; intros; discriminate.
Defined.

Lemma validation_failure_contract_witness :
  exists k',
    construct MWindowState [("title", PStr "Main Window")]
    = ValidationError k'
    /\ offending MWindowState [("title", PStr "Main Window")] k'.
Proof.
  apply (proj1 validation_failure_contract MWindowState
           [("title", PStr "Main Window")] "window_id").
  exists true, TInt. split; [simpl; auto | reflexivity].
Defined.

(** ** More of the factory *)

Section FactoryMore.
Context {FakeAXUIElement FakeNSRunningApplication : Type}.

Local Abbreviation State := (State FakeAXUIElement FakeNSRunningApplication).
Local Abbreviation obj := (obj FakeAXUIElement FakeNSRunningApplication).

Implicit Types (s : State) (o : obj) (env : Env) (e : exc).

(** X1.  Fake mode is one behaviour, by whichever route it is entered
    ([force_fake] or the test mode): the call returns, and what it returns
    and does is the same whatever the environment says about the native
    binding, which it never asks for. *)
Theorem fake_mode_ignores_native_binding env env' force_fake force_fake' s :
  use_fake env force_fake = true ->
  use_fake env' force_fake' = true ->
  create_pyobjc_bridge env force_fake s
  = create_pyobjc_bridge env' force_fake' s
  /\ exists t s', create_pyobjc_bridge env force_fake s = (Return t, s').
Proof.
  intros Hf Hf'.
  destruct (all_set_or_some_unset s) as [(p & w & a & Hs) | Hs].
  - rewrite (create_reuse env force_fake s p w a Hf Hs).
    rewrite (create_reuse env' force_fake' s p w a Hf' Hs). eauto.
  - rewrite (create_fake env force_fake s Hf Hs).
    rewrite (create_fake env' force_fake' s Hf' Hs). eauto.
Qed.

(** X2.  Outside fake mode the call does not look at the three globals: it
    does the same whatever they hold, and the bridges it returns are new
    ones even when all three globals are set. *)
Theorem real_mode_ignores_globals env force_fake s :
  use_fake env force_fake = false ->
  (forall x y z,
     create_pyobjc_bridge env force_fake (with_slots x y z s)
     = (fst (create_pyobjc_bridge env force_fake s),
        with_slots x y z (snd (create_pyobjc_bridge env force_fake s))))
  /\ (forall t s',
        create_pyobjc_bridge env force_fake s = (Return t, s') ->
        fresh_triple s t).
Proof.
  intros Hf. split.
  - intros x y z. unfold use_fake in Hf.
    destruct s as [h p w a l].
    destruct env as [tm [e0|] [e1|] [e2|] [e3|]]; simpl in Hf;
      unfold create_pyobjc_bridge, try_except_ImportError, bind, get, ret,
        raise, logger_info, logger_warning, py_import, call_init, new;
      simpl; rewrite Hf; simpl;
      repeat match goal with
             | |- context [isinstance_ImportError ?e] =>
                 destruct (isinstance_ImportError e)
             end;
      reflexivity.
  - intros t s' Hc.
    destruct (create_outcome env force_fake s)
      as [(Hf' & _)
         | [(Hf' & _)
         | [(_ & _ & t0 & s0 & Hc0 & (Hfr & _) & _)
         | [(_ & e & _ & _ & t0 & s0 & Hc0 & (Hfr & _) & _)
         | (_ & e & _ & _ & s0 & Hc0 & _)]]]]; try congruence.
Qed.

Lemma triple_members_allocated s (t : loc * loc * loc) :
  fake_triple s t \/ real_triple s t ->
  forall acc, is_Some (heap s !! component acc t).
Proof.
  destruct t as [[p w] a].
  intros [(Hp & Hw & Ha) | (Hp & Hw & Ha)] []; simpl; eauto.
Qed.

Lemma fresh_members_unallocated s (t : loc * loc * loc) :
  fresh_triple s t -> forall acc, heap s !! component acc t = None.
Proof.
  destruct t as [[p w] a]. intros (Hp & Hw & Ha & _) []; assumption.
Qed.

Lemma selected_mode_None env :
  selected_mode env = None ->
  is_test_mode env = false
  /\ exists e,
       real_bridge_failure env = Some e
       /\ isinstance_ImportError e = false.
Proof.
  unfold selected_mode. destruct (is_test_mode env); [discriminate |].
  destruct (real_bridge_failure env) as [e |]; [| discriminate].
  destruct (isinstance_ImportError e) eqn:Hi; [discriminate |]. eauto.
Qed.

(** X3.  Fake mode serves whatever the globals hold.  Once an accessor has
    stored real bridges, a call of [create_pyobjc_bridge] in fake mode, by
    [force_fake] or by the test mode, returns those real bridges and
    constructs nothing. *)
Theorem fake_mode_returns_stored_real_bridges
    env1 env2 acc force_fake s r s1 :
  all_unset s ->
  selected_mode env1 = Some Real ->
  get_bridge acc env1 s = (Return r, s1) ->
  use_fake env2 force_fake = true ->
  exists t,
    create_pyobjc_bridge env2 force_fake s1 = (Return t, s1)
    /\ real_triple s1 t.
Proof.
  intros (Hp & _) Hm Hg Hf.
  pose proof (get_bridge_constructs env1 acc s (or_introl Hp)) as Hc.
  unfold constructs_afresh in Hc. rewrite Hm in Hc.
  destruct Hc as (p & w & a & s' & Hg' & Hsl & _ & Hreal).
  rewrite Hg' in Hg. inversion Hg; subst.
  exists (p, w, a). split; [| exact Hreal].
  apply create_reuse; assumption.
Qed.

(** X4.  The mode is chosen once.  After an accessor call that returns, the
    three globals hold one triple, and every later accessor call, whatever
    the test mode and the native binding have become, returns its member of
    that triple and changes nothing. *)
Theorem accessors_serve_one_triple env1 acc1 s r s1 :
  get_bridge acc1 env1 s = (Return r, s1) ->
  exists p w a,
    slots s1 = (Some p, Some w, Some a)
    /\ r = Some (component acc1 (p, w, a))
    /\ forall env2 acc2,
         get_bridge acc2 env2 s1
         = (Return (Some (component acc2 (p, w, a))), s1).
Proof.
  intros Hg.
  destruct (get_bridge_returns env1 acc1 s r s1 Hg)
    as (([p Hp] & [w Hw] & [a Ha]) & Hr).
  assert (Hsl : slots s1 = (Some p, Some w, Some a))
    by (unfold slots; congruence).
  exists p, w, a. split; [exact Hsl |]. split.
  - rewrite Hr. destruct acc1; simpl; assumption.
  - intros env2 acc2. rewrite (get_bridge_set env2 acc2 s1 p w a Hsl).
    destruct acc2; simpl; congruence.
Qed.

(** X5.  A failure is not kept.  When an accessor call raises, the test
    mode was off and the real construction raised that exception, which is
    no [ImportError]; the globals are as before, still with one unset, so
    that the next accessor call tries the construction again. *)
Theorem failed_accessor_is_retried env acc s e s1 :
  get_bridge acc env s = (Raise e, s1) ->
  is_test_mode env = false
  /\ real_bridge_failure env = Some e
  /\ isinstance_ImportError e = false
  /\ slots s1 = slots s
  /\ some_unset s1
  /\ forall env2 acc2, constructs_afresh env2 acc2 s1.
Proof.
  intros Hg.
  destruct (all_set_or_some_unset s) as [(p & w & a & Hs) | Hs].
  { rewrite (get_bridge_set env acc s p w a Hs) in Hg. discriminate. }
  pose proof (get_bridge_constructs env acc s Hs) as Hc.
  unfold constructs_afresh in Hc.
  destruct (selected_mode env) as [m |] eqn:Hm.
  { destruct Hc as (p & w & a & s' & Hg' & _). congruence. }
  destruct Hc as (e' & s' & Hg' & Hsl & Hr).
  rewrite Hg' in Hg. inversion Hg; subst.
  destruct (selected_mode_None env Hm) as (Ht & e2 & Hr2 & Hi).
  assert (e2 = e) as -> by congruence.
  assert (Hs1 : some_unset s1).
  { unfold slots in Hsl. inversion Hsl as [[H1 H2 H3]].
    unfold some_unset in *. rewrite H1, H2, H3. exact Hs. }
  repeat split; try assumption.
  intros env2 acc2. apply get_bridge_constructs. exact Hs1.
Qed.

(** X6.  What [create_pyobjc_bridge] returns is not installed.  Called
    while some global is unset, it leaves the globals as they are, and the
    accessor called next constructs again: the bridge it returns is none of
    the three the direct call returned. *)
Theorem created_triple_is_not_installed env force_fake s t s1 :
  some_unset s ->
  create_pyobjc_bridge env force_fake s = (Return t, s1) ->
  some_unset s1
  /\ forall env2 acc acc' r s2,
       get_bridge acc env2 s1 = (Return r, s2) ->
       r <> Some (component acc' t).
Proof.
  intros Hs Hc.
  assert (Hfacts : slots s1 = slots s
                   /\ (fake_triple s1 t \/ real_triple s1 t)).
  { destruct (create_outcome env force_fake s)
      as [(_ & p & w & a & Hset & _)
         | [(_ & _ & t0 & s0 & Hc0 & (_ & Hsl & _) & Hk)
         | [(_ & _ & t0 & s0 & Hc0 & (_ & Hsl & _) & Hk)
         | [(_ & e & _ & _ & t0 & s0 & Hc0 & (_ & Hsl & _) & Hk & _)
         | (_ & e & _ & _ & s0 & Hc0 & _)]]]].
    - exfalso. unfold slots in Hset. inversion Hset.
      destruct Hs as [H | [H | H]]; congruence.
    - rewrite Hc0 in Hc. inversion Hc; subst. auto.
    - rewrite Hc0 in Hc. inversion Hc; subst. auto.
    - rewrite Hc0 in Hc. inversion Hc; subst. auto.
    - congruence. }
  destruct Hfacts as [Hsl Hk].
  assert (Hs1 : some_unset s1).
  { unfold slots in Hsl. inversion Hsl as [[H1 H2 H3]].
    unfold some_unset in *. rewrite H1, H2, H3. exact Hs. }
  split; [exact Hs1 |].
  intros env2 acc acc' r s2 Hg Heq.
  pose proof (get_bridge_constructs env2 acc s1 Hs1) as Hcon.
  unfold constructs_afresh in Hcon.
  destruct (selected_mode env2) as [m |].
  - destruct Hcon as (p & w & a & s' & Hg' & _ & Hfr & _).
    rewrite Hg' in Hg. inversion Hg as [[Hr Hs2]].
    assert (Hcomp : component acc (p, w, a) = component acc' t)
      by congruence.
    pose proof (fresh_members_unallocated s1 (p, w, a) Hfr acc) as Hnone.
    destruct (triple_members_allocated s1 t Hk acc') as [o Ho].
    rewrite Hcomp in Hnone. congruence.
  - destruct Hcon as (e & s' & Hg' & _). congruence.
Qed.

(** X9.  Injecting a fixture overrides mode selection.  After the three
    bridges of [create_fake_bridges_with_system] are handed to
    [set_bridge_instances], every accessor returns its member of the
    three, in any environment, and the bridges hold the fixture. *)
Theorem injected_fixture_is_served
    (applications : gmap Z FakeAXUIElement)
    (running_apps : list FakeNSRunningApplication) s :
  exists p w a s1,
    create_fake_bridges_with_system applications running_apps s
    = (Return (p, w, a), s1)
    /\ heap s1 !! p = Some (FakePyObjCBridge applications)
    /\ heap s1 !! w = Some (FakeWorkspaceBridge running_apps)
    /\ heap s1 !! a = Some FakeApplicationBridge
    /\ forall env acc,
         get_bridge acc env (snd (set_bridge_instances p w a s1))
         = (Return (Some (component acc (p, w, a))),
            snd (set_bridge_instances p w a s1)).
Proof.
  unfold create_fake_bridges_with_system.
  eexists _, _, _, _. split; [apply new3_run |].
  repeat split; try apply alloc3_lookup.
  intros env acc.
  match goal with
  | |- get_bridge _ _ (snd (set_bridge_instances ?p ?w ?a ?s1)) = _ =>
      rewrite (get_bridge_set env acc
                 (snd (set_bridge_instances p w a s1)) p w a eq_refl)
  end.
  destruct acc; reflexivity.
Qed.

(** What a call of [create_pyobjc_bridge] adds to the store and to the
    log, and when a warning is among it. *)
Lemma create_appends env force_fake s :
  exists g l,
    heap (snd (create_pyobjc_bridge env force_fake s)) = heap s ++ g
    /\ log (snd (create_pyobjc_bridge env force_fake s)) = log s ++ l
    /\ forall fmt e,
         In (LogWarning fmt e) l
         <-> fmt = "Failed to import real PyObjC bridge: %s"
             /\ use_fake env force_fake = false
             /\ real_bridge_failure env = Some e
             /\ isinstance_ImportError e = true.
Proof.
  destruct (use_fake env force_fake) eqn:Hf.
  - destruct (all_set_or_some_unset s) as [(p & w & a & Hs) | Hs].
    + rewrite (create_reuse env force_fake s p w a Hf Hs).
      exists [], []. simpl. rewrite !app_nil_r.
      repeat split; try tauto. intros (_ & H & _). discriminate.
    + rewrite (create_fake env force_fake s Hf Hs).
      eexists _, [LogInfo "Using fake PyObjC bridge for testing"].
      split; [reflexivity |]. split; [reflexivity |].
      intros fmt e. simpl. split.
      * intros [H | []]. discriminate.
      * intros (_ & H & _). discriminate.
  - destruct (real_bridge_failure env) as [e0 |] eqn:Hr.
    + destruct (isinstance_ImportError e0) eqn:Hi.
      * destruct (create_fallback env force_fake s e0 Hf Hr Hi) as [g Hg].
        rewrite Hg.
        exists (g ++ [FakePyObjCBridge_default; FakeWorkspaceBridge_default;
                      FakeApplicationBridge]).
        exists [LogInfo "Using real PyObjC bridge"; import_warning e0;
                LogInfo "Falling back to fake PyObjC bridge"].
        split; [simpl; rewrite <- app_assoc; reflexivity |].
        split; [simpl; rewrite <- app_assoc; reflexivity |].
        intros fmt e. simpl. unfold import_warning. split.
        -- intros [H | [H | [H | []]]]; try discriminate.
           inversion H; subst. auto.
        -- intros (-> & _ & H & _). inversion H; subst. auto.
      * destruct (create_real_raise env force_fake s e0 Hf Hr Hi) as [g Hg].
        rewrite Hg. exists g, [LogInfo "Using real PyObjC bridge"].
        split; [reflexivity |]. split; [reflexivity |].
        intros fmt e. simpl. split.
        -- intros [H | []]. discriminate.
        -- intros (_ & _ & H & Hi'). inversion H; subst. congruence.
    + rewrite (create_real_ok env force_fake s Hf Hr).
      eexists _, [LogInfo "Using real PyObjC bridge"].
      split; [reflexivity |]. split; [reflexivity |].
      intros fmt e. simpl. split.
      * intros [H | []]. discriminate.
      * intros (_ & _ & H & _). discriminate.
Qed.

(** X7.  No call of the module takes anything back: what was in the store
    stays there unchanged, so that every reference handed out stays valid,
    and what was in the log stays in the log. *)
Theorem calls_only_append env (c : call _ _) s :
  heap s `prefix_of` heap (snd (exec env c s))
  /\ log s `prefix_of` log (snd (exec env c s)).
Proof.
  destruct c as [apps running | force_fake | acc | | p w a];
    unfold exec, bind.
  - destruct (create_fake_bridges_with_system_run apps running s)
      as [t Ht]. rewrite Ht. simpl.
    split; [eexists; reflexivity | exists []; symmetry; apply app_nil_r].
  - destruct (create_appends env force_fake s) as (g & l & Hh & Hl & _).
    destruct (create_pyobjc_bridge env force_fake s) as [[t | e] s'];
      simpl in *; split; eexists; eassumption.
  - destruct (all_set_or_some_unset s) as [(p & w & a & Hs) | Hs].
    + rewrite (get_bridge_set env acc s p w a Hs). simpl.
      split; exists []; symmetry; apply app_nil_r.
    + rewrite (get_bridge_unset env acc s Hs).
      destruct (create_appends env false s) as (g & l & Hh & Hl & _).
      destruct (create_pyobjc_bridge env false s)
        as [[[[p w] a] | e] s'];
        simpl in *; split; eexists; eassumption.
  - simpl. split; exists []; symmetry; apply app_nil_r.
  - simpl. split; exists []; symmetry; apply app_nil_r.
Qed.

(** X8.  A warning is logged exactly on fallback: among what a call of
    [create_pyobjc_bridge] adds to the log there is a warning with the
    exception [e] if and only if the call is outside fake mode and the real
    construction raised [e], an [ImportError]; the warning is the one of
    line 105. *)
Theorem warning_logged_iff_fallback env force_fake s fmt e :
  In (LogWarning fmt e)
    (drop (length (log s))
       (log (snd (create_pyobjc_bridge env force_fake s))))
  <-> fmt = "Failed to import real PyObjC bridge: %s"
      /\ use_fake env force_fake = false
      /\ real_bridge_failure env = Some e
      /\ isinstance_ImportError e = true.
Proof.
  destruct (create_appends env force_fake s) as (g & l & _ & Hl & Hw).
  rewrite Hl, drop_app_length. apply Hw.
Qed.
End FactoryMore.

(** ** The wrapper script *)

(** The script run as far as its own code goes, with the strings, the
    paths and the surroundings left as they are. *)
Ltac run_wrapper :=
  cbv [main_prepare main_launch W_bind log_debug datetime_now_isoformat
       print_stderr W_get os_chdir sys_path_insert_0 sys_exit W_raise W_ret
       on_ImportError on_Exception
       cwd sys_path stderr ticks fst snd].


(** The surroundings apart from the server. *)
Ltac unfold_surroundings :=
  cbv [main_prepare on_ImportError on_Exception src_dir mcp_server_path
       log_debug datetime_now_isoformat os_chdir with_server now
       sys_executable sys_version environ_PATH script_dir path_exists
       chdir_raises repr_list].



Lemma handler_with_server imp srv env e s :
  (if isinstance_ImportError e
   then on_ImportError (with_server imp srv env) e s
   else on_Exception (with_server imp srv env) e s)
  = (if isinstance_ImportError e then on_ImportError env e s
     else on_Exception env e s).
Proof.
  destruct env, (isinstance_ImportError e); unfold_surroundings;
    reflexivity.
Qed.






(** X13.  What the preparation writes.  It only adds to [stderr], and only
    lines of [log_debug], the timestamp in brackets before the tag; the
    first is the banner, stamped with the clock as it stood, and the clock
    is read once for each line. *)
Theorem main_prepare_stderr env s :
  exists lines,
    stderr (snd (main_prepare env s)) = stderr s ++ lines
    /\ Forall is_debug_line lines
    /\ head lines
       = Some (Line ("[" +:+ now env (ticks s)
                     +:+ "] WRAPPER DEBUG: "
                     +:+ "=== MCP Server Wrapper Starting ==="))
    /\ ticks (snd (main_prepare env s)) = (ticks s + length lines)%nat.
Proof.
  destruct s as [c p err t].
  run_wrapper.
  destruct (chdir_raises env) as [e |];
    [| destruct (bool_decide (src_dir env ∈ p));
       destruct (path_exists env (src_dir env));
       destruct (path_exists env (mcp_server_path env))];
    (eexists; split;
     [rewrite <- !app_assoc; reflexivity
     | split;
       [repeat constructor; eexists _, _; reflexivity
       | split; [reflexivity | cbn [length app]; lia]]]).
Qed.

(** ** The further theorems at concrete inputs *)

Example wrapper_misses_the_module_it_imports :
  fst (main (wrapper_env checkout_files (W_ret tt) (W_ret tt)) wrapper_start)
  = Raises (SystemExit 1)
  /\ last (stderr (snd (main (wrapper_env checkout_files (W_ret tt)
                                (W_ret tt)) wrapper_start)))
     = Some (Line ("[2025-01-01T00:00:09] WRAPPER DEBUG: "
                   +:+ "ERROR: MCP server module does not exist: "
                   +:+ "/opt/mcp/src/macos_ui_automation/mcp_server.py")).
Proof. vm_compute. split; reflexivity. Qed.

Example wrapper_runs_the_server :
  fst (main (wrapper_env checkout_with_checked_file (W_ret tt) (W_ret tt))
         wrapper_start)
  = Returns tt
  /\ sys_path (snd (main (wrapper_env checkout_with_checked_file (W_ret tt)
                            (W_ret tt)) wrapper_start))
     = ["/opt/mcp/src"; "/usr/lib/python3.12"].
Proof. vm_compute. split; reflexivity. Qed.

Lemma fake_mode_ignores_native_binding_witness :
  create_pyobjc_bridge env_test_mode false state_loaded
  = create_pyobjc_bridge env_broken_binding true state_loaded
  /\ exists t s',
       create_pyobjc_bridge env_test_mode false state_loaded
       = (Return t, s').
Proof.
  apply (fake_mode_ignores_native_binding env_test_mode env_broken_binding
           false true state_loaded);
    reflexivity.
Defined.

Lemma real_mode_ignores_globals_witness :
  fresh_triple state_injected (3%nat, 4%nat, 5%nat).
Proof.
  apply (proj2 (real_mode_ignores_globals env_native false state_injected
                  eq_refl)
           (3%nat, 4%nat, 5%nat)
           (snd (create_pyobjc_bridge env_native false state_injected))).
  reflexivity.
Defined.

Lemma fake_mode_returns_stored_real_bridges_witness :
  exists t,
    create_pyobjc_bridge env_missing_binding true state_real
    = (Return t, state_real)
    /\ real_triple state_real t.
Proof.
  apply (fake_mode_returns_stored_real_bridges env_native env_missing_binding
           PyObjC true state_loaded (Some 0%nat) state_real).
  - repeat split.
  - reflexivity.
  - reflexivity.
  - reflexivity.
Defined.

Lemma accessors_serve_one_triple_witness :
  exists p w a,
    slots state_real = (Some p, Some w, Some a)
    /\ Some 0%nat = Some (component PyObjC (p, w, a))
    /\ forall env2 acc2,
         get_bridge acc2 env2 state_real
         = (Return (Some (component acc2 (p, w, a))), state_real).
Proof.
  apply (accessors_serve_one_triple env_native PyObjC state_loaded
           (Some 0%nat) state_real).
  reflexivity.
Defined.

Lemma failed_accessor_is_retried_witness :
  constructs_afresh env_native PyObjC
    (snd (get_workspace_bridge env_broken_binding state_loaded)).
Proof.
  apply (failed_accessor_is_retried env_broken_binding Workspace state_loaded
           (Exc (OtherException "RuntimeError") "accessibility denied")
           (snd (get_workspace_bridge env_broken_binding state_loaded))).
  reflexivity.
Defined.

Lemma created_triple_is_not_installed_witness :
  some_unset (snd (create_pyobjc_bridge env_test_mode false state_loaded)).
Proof.
  apply (created_triple_is_not_installed env_test_mode false state_loaded
           (0%nat, 1%nat, 2%nat)
           (snd (create_pyobjc_bridge env_test_mode false state_loaded))).
  - left. reflexivity.
  - reflexivity.
Defined.




